(** * scratch-desktop build scripts: electron-builder wrapper and afterSign hook

    A shallow embedding of [scripts/electron-builder-wrapper.js] and
    [scripts/afterSign.js].

    Conventions of the embedding.
    - A JavaScript string is a [string]; one [ascii] stands for one code unit
      in the range 0..255.
    - [process.env] and every object used as a dictionary is a
      [gmap string string]; a missing property reads as [None]
      ([undefined] in the source).
    - A value that may be [undefined] is an [option].
    - Console output, child processes and the notarization request are
      recorded as a trace of [event]s; a thrown exception ends the
      computation with [Throw]. *)

From Stdlib Require Import ZArith String Ascii DecimalString.
From stdpp Require Import gmap strings list.

Local Open Scope string_scope.
Local Open Scope list_scope.

(** ** JavaScript values and primitives *)

(** Truthiness of a property holding a string or [undefined]. *)
Definition truthy_str (v : option string) : bool :=
  match v with
  | Some s => negb (String.eqb s "")
  | None => false
  end.

(** Truthiness of a variable holding a boolean or [undefined]. *)
Definition truthy_bool (v : option bool) : bool :=
  match v with
  | Some b => b
  | None => false
  end.

(** [a || b] on properties: the first operand when truthy, else the second. *)
Definition js_or (a b : option string) : option string :=
  if truthy_str a then a else b.

(** [hay.indexOf(needle)]: position of the first occurrence, [-1] if none. *)
Fixpoint indexOfFrom (pos : Z) (needle hay : string) : Z :=
  if String.prefix needle hay then pos
  else match hay with
       | EmptyString => (-1)%Z
       | String _ hay' => indexOfFrom (pos + 1) needle hay'
       end.

Definition indexOf (hay needle : string) : Z := indexOfFrom 0 needle hay.

(** The line feed and the double quote, for message texts. *)
Definition LF : string := String "010"%char "".
Definition DQ : string := String "034"%char "".

(** The code units below 256 that the regular expression class [\s] accepts:
    tab, line feed, vertical tab, form feed, carriage return, space and
    no-break space. *)
Definition isWhiteSpace (c : ascii) : bool :=
  let n := nat_of_ascii c in
  ((9 <=? n) && (n <=? 13) || (n =? 32) || (n =? 160))%nat.

(** The longest run of white space at the start of [s], and what follows. *)
Fixpoint spanWhiteSpace (s : string) : string * string :=
  match s with
  | String c s' =>
      if isWhiteSpace c
      then let '(ws, rest) := spanWhiteSpace s' in (String c ws, rest)
      else ("", s)
  | EmptyString => ("", "")
  end.

(** [Some rest] when [s] is [p] followed by [rest]. *)
Fixpoint stripPrefix (p s : string) : option string :=
  match p, s with
  | EmptyString, _ => Some s
  | String a p', String b s' => if Ascii.eqb a b then stripPrefix p' s' else None
  | String _ _, EmptyString => None
  end.

(** [xs.join(sep)] on an array of strings. *)
Definition join (sep : string) (xs : list string) : string := String.concat sep xs.

(** Template-literal rendering of a number. *)
Definition string_of_Z (n : Z) : string := NilZero.string_of_int (Z.to_int n).

(** ** Exceptions, traces and the effect monad *)

Inductive exn : Type :=
  | Error (message : string)
  | TypeError (message : string).

Inductive outcome (A : Type) : Type :=
  | Return (a : A)
  | Throw (e : exn).
Arguments Return {A} a.
Arguments Throw {A} e.

(** Options handed to [notarize] of electron-notarize. *)
Record NotarizeOptions : Type := {
  appBundleId : string;
  appPath : string;
  appleId : string;
  appleIdPassword : string
}.

Inductive event : Type :=
  | ConsoleLog (line : string)
  | ConsoleError (line : string)
  | SpawnSync (command : string) (args : list string) (env : gmap string string)
  | Notarize (opts : NotarizeOptions).

(** A computation yields the events it performed, in order, and how it ended. *)
Definition M (A : Type) : Type := list event * outcome A.

Definition ret {A} (a : A) : M A := ([], Return a).

Definition throw {A} (e : exn) : M A := ([], Throw e).

Definition emit (ev : event) : M unit := ([ev], Return tt).

Definition bind {A B} (m : M A) (k : A -> M B) : M B :=
  match m with
  | (tr, Return a) => let '(tr', r) := k a in (tr ++ tr', r)
  | (tr, Throw e) => (tr, Throw e)
  end.

Notation "x <- m ;; k" := (bind m (fun x => k))
  (at level 100, m at next level, right associativity).
Notation "m ;;; k" := (bind m (fun _ => k))
  (at level 100, right associativity).

Definition when (b : bool) (m : M unit) : M unit := if b then m else ret tt.

Definition trace {A} (m : M A) : list event := fst m.
Definition result {A} (m : M A) : outcome A := snd m.

Definition is_spawn (ev : event) : bool :=
  match ev with SpawnSync _ _ _ => true | _ => false end.

Definition is_notarize (ev : event) : bool :=
  match ev with Notarize _ => true | _ => false end.

(** ** Process globals *)

Module process.

(** What the scripts read of Node's [process] object. *)
Record t : Type := {
  platform : string;
  env : gmap string string;
  argv : list string
}.

End process.

(** ** Objects by reference *)

(** Objects live in a store and are passed by reference. *)
Definition loc : Type := nat.
Definition store : Type := gmap loc (gmap string string).

Definition alloc (h : store) (obj : gmap string string) : store * loc :=
  let r := fresh (dom h) in (<[r := obj]> h, r).

(** ** electron-builder-wrapper.js *)

Module Wrapper.

(** The four code-signing variables named in [stripCSC]. *)
Definition CSC_keys : list string :=
  ["CSC_LINK"; "CSC_KEY_PASSWORD"; "WIN_CSC_LINK"; "WIN_CSC_KEY_PASSWORD"].

(** Object rest destructuring: an object holding every own property of
    [environment] but the four named ones. *)
Definition stripCSC (environment : gmap string string) : gmap string string :=
  delete "WIN_CSC_KEY_PASSWORD"
    (delete "WIN_CSC_LINK"
       (delete "CSC_KEY_PASSWORD"
          (delete "CSC_LINK" environment))).

(** [stripCSC] at the level of references: reads the argument object and
    returns a reference to a newly allocated one. *)
Definition stripCSC_ref (h : store) (environment : loc) : option (store * loc) :=
  match h !! environment with
  | Some obj => Some (alloc h (stripCSC obj))
  | None => None
  end.

Definition getPlatformFlag (proc : process.t) : M string :=
  if String.eqb (process.platform proc) "win32" then ret "--windows"
  else if String.eqb (process.platform proc) "darwin" then ret "--macos"
  else if String.eqb (process.platform proc) "linux" then ret "--linux"
  else throw (Error ("Could not determine platform flag for platform: "
                     +:+ process.platform proc)).

Definition isTargetOfType (targetName targetType : string) : bool :=
  String.eqb targetName targetType
  || (indexOf targetName (targetType +:+ ":") =? 0)%Z.

(** One call to electron-builder: a platform and a space-joined target name. *)
Record Target : Type := {
  platform : string;
  name : string
}.

(** The object returned by [parseArgs]; [doPackage] and [doSign] stay
    [undefined] when no case of the switch applies. *)
Record WrapperConfig : Type := {
  builderArgs : list string;
  doPackage : option bool;
  doSign : option bool;
  mode : string
}.

(** What [spawnSync] reports about the child: [error] when it could not be
    started, [signal] when it was killed, [status] its exit code. *)
Record SpawnResult : Type := {
  error : option exn;
  signal : option string;
  status : option Z
}.

Definition truthy_status (v : option Z) : bool :=
  match v with
  | Some n => negb (n =? 0)%Z
  | None => false
  end.

(** The two constants computed at the top of [runBuilder]. *)
Definition shouldStripCSC (wrapperConfig : WrapperConfig) (target : Target) : bool :=
  isTargetOfType (name target) "appx" || negb (truthy_bool (doSign wrapperConfig)).

Definition childEnvironment (proc : process.t) (wrapperConfig : WrapperConfig)
    (target : Target) : gmap string string :=
  if shouldStripCSC wrapperConfig target
  then stripCSC (process.env proc)
  else process.env proc.

Definition runBuilder (proc : process.t)
    (spawnSync : string -> list string -> gmap string string -> SpawnResult)
    (wrapperConfig : WrapperConfig) (target : Target) : M unit :=
  let childEnvironment := childEnvironment proc wrapperConfig target in
  when (truthy_bool (doSign wrapperConfig)
        && isTargetOfType (name target) "nsis"
        && negb (truthy_str (js_or (childEnvironment !! "CSC_LINK")
                                   (childEnvironment !! "WIN_CSC_LINK"))))
       (throw (Error "Signing NSIS build requires CSC_LINK or WIN_CSC_LINK")) ;;;
  platformFlag <- getPlatformFlag proc ;;
  let allArgs := [platformFlag; name target] in
  let allArgs :=
    if String.eqb (platform target) "darwin" then
      let allArgs :=
        allArgs ++ ["--c.mac.type=" +:+ (if String.eqb (mode wrapperConfig) "dist"
                                        then "distribution" else "development")] in
      let allArgs :=
        if isTargetOfType (name target) "mas-dev"
        then allArgs ++ ["--c.mac.provisioningProfile=mas-dev.provisionprofile"]
        else allArgs in
      if truthy_bool (doSign wrapperConfig)
      then allArgs ++ ["--c.afterSign=scripts/afterSign.js"]
      else allArgs ++ ["--c.mac.identity=null"]
    else allArgs in
  let allArgs :=
    if negb (truthy_bool (doPackage wrapperConfig))
    then allArgs ++ ["--dir"; "--c.compression=store"]
    else allArgs in
  let allArgs := allArgs ++ builderArgs wrapperConfig in
  emit (ConsoleLog ("running electron-builder with arguments: " +:+ join "," allArgs)) ;;;
  emit (SpawnSync "electron-builder" allArgs childEnvironment) ;;;
  let result := spawnSync "electron-builder" allArgs childEnvironment in
  match error result with
  | Some e => throw e
  | None =>
      if truthy_str (signal result) then
        throw (Error ("Child process terminated due to signal "
                      +:+ default "" (signal result)))
      else if truthy_status (status result) then
        throw (Error ("Child process returned status code "
                      +:+ string_of_Z (default 0%Z (status result))))
      else ret tt
  end.

(** [targets.push(newEntry)]; the array is threaded through. A missing
    [newArchitectures] takes the default [null], on which [.map] throws. *)
Definition addPlatformTarget (targets : list Target) (newPlatform newTarget : string)
    (newArchitectures : option (list string)) : M (list Target) :=
  match newArchitectures with
  | None => throw (TypeError "Cannot read properties of null (reading 'map')")
  | Some archs =>
      let newEntry := {|
        platform := newPlatform;
        name := join " " (map (fun arch => newTarget +:+ ":" +:+ arch) archs)
      |} in
      ret (targets ++ [newEntry])
  end.

(** [fs.existsSync] over the set of paths that exist. *)
Definition existsSync (fs : gset string) (path : string) : bool :=
  bool_decide (path ∈ fs).

Definition calculateTargets (proc : process.t) (fs : gset string)
    (wrapperConfig : WrapperConfig) : M (list Target) :=
  let masDevProfile := "mas-dev.provisionprofile" in
  let targets := [] in
  if String.eqb (process.platform proc) "win32" then
    targets <- addPlatformTarget targets "win32" "appx" (Some ["x64"; "ia32"; "arm64"]) ;;
    targets <- addPlatformTarget targets "win32" "nsis" (Some ["ia32"]) ;;
    ret targets
  else if String.eqb (process.platform proc) "darwin" then
    targets <-
      (if existsSync fs masDevProfile
       then addPlatformTarget targets "darwin" "mas-dev" (Some ["x64"; "arm64"])
       else emit (ConsoleLog ("skipping 'mas-dev' targets: " +:+ masDevProfile +:+ " missing")) ;;;
            ret targets) ;;
    targets <-
      (if truthy_bool (doSign wrapperConfig)
       then addPlatformTarget targets "darwin" "mas" (Some ["x64"; "arm64"])
       else emit (ConsoleLog "skipping 'mas' targets: code-signing is disabled") ;;;
            ret targets) ;;
    targets <- addPlatformTarget targets "darwin" "dmg" (Some ["x64"; "arm64"]) ;;
    ret targets
  else
    throw (Error ("Could not determine targets for platform: " +:+ process.platform proc)).

(** One attempt of the regular expression [--mode(\s+|=)] anchored at the
    start of [s]: the text of the capture group and the text after the match.
    The group tries a greedy run of white space first, then a single [=]. *)
Definition matchMode (s : string) : option (string * string) :=
  match stripPrefix "--mode" s with
  | None => None
  | Some s1 =>
      match spanWhiteSpace s1 with
      | (String c ws, rest) => Some (String c ws, rest)
      | (EmptyString, _) =>
          match s1 with
          | String "="%char rest => Some ("=", rest)
          | _ => None
          end
      end
  end.

(** The loop of [String.prototype.split] with that regular expression:
    [piece] is the text since the end of the last match, [s] the text still to
    scan. A match closes the piece and also yields the capture group; the
    scan resumes after the match. No match at this position: move on by one
    code unit. [fuel] bounds the number of positions visited. *)
Fixpoint splitLoop (fuel : nat) (piece s : string) : list string :=
  match fuel with
  | O => [piece +:+ s]
  | S fuel' =>
      match s with
      | EmptyString => [piece]
      | String c s' =>
          match matchMode s with
          | Some (cap, rest) => piece :: cap :: splitLoop fuel' "" rest
          | None => splitLoop fuel' (piece +:+ String c "") s'
          end
      end
  end.

(** [arg.split(/--mode(\s+|=)/)]: every position of [arg] is visited once. *)
Definition splitMode (arg : string) : list string :=
  splitLoop (S (String.length arg)) "" arg.

(** The body of the [for ... of] loop over the script arguments, on the two
    variables it updates. *)
Definition parseArgs_step (st : string * list string) (arg : string)
    : string * list string :=
  let '(mode, builderArgs) := st in
  let modeSplit := splitMode arg in
  if (length modeSplit =? 3)%nat
  then (nth 2 modeSplit "", builderArgs)
  else (mode, builderArgs ++ [arg]).

Definition parseArgs (proc : process.t) : WrapperConfig :=
  let scriptArgs := drop 2 (process.argv proc) in
  let '(mode, builderArgs) := fold_left parseArgs_step scriptArgs ("dev", []) in
  let '(doPackage, doSign) :=
    if String.eqb mode "dev" then (Some true, Some false)
    else if String.eqb mode "dir" then (Some false, Some false)
    else if String.eqb mode "dist" then (Some true, Some true)
    else (None, None) in
  {| builderArgs := builderArgs;
     doPackage := doPackage;
     doSign := doSign;
     mode := mode |}.

(** The [for ... of] loop of [main]: one call of [runBuilder] per target, in
    order; a throw ends the loop. *)
Fixpoint runBuilders (proc : process.t)
    (spawnSync : string -> list string -> gmap string string -> SpawnResult)
    (wrapperConfig : WrapperConfig) (targets : list Target) : M unit :=
  match targets with
  | [] => ret tt
  | target :: rest =>
      runBuilder proc spawnSync wrapperConfig target ;;;
      runBuilders proc spawnSync wrapperConfig rest
  end.

(** [wrapperConfig.targets] is read by the loop only, so the list is passed
    on as it is. *)
Definition main (proc : process.t) (fs : gset string)
    (spawnSync : string -> list string -> gmap string string -> SpawnResult) : M unit :=
  let wrapperConfig := parseArgs proc in
  targets <- calculateTargets proc fs wrapperConfig ;;
  runBuilders proc spawnSync wrapperConfig targets.

End Wrapper.

(** ** afterSign.js *)

Module AfterSign.

(** An entry of [context.targets]. *)
Record PackagerTarget : Type := {
  name : string
}.

(** What the hook reads of the context electron-builder passes to it;
    [productFilename] is [context.packager.appInfo.productFilename]. *)
Record Context : Type := {
  appOutDir : string;
  productFilename : string;
  targets : list PackagerTarget
}.

Definition notarizeMacBuild (proc : process.t)
    (notarize : NotarizeOptions -> outcome unit) (context : Context) : M unit :=
  let appId := "edu.mit.scratch.scratch-desktop" in
  if negb (truthy_str (process.env proc !! "AC_USERNAME")) then
    emit (ConsoleError (join LF [
      "This build is not notarized and will not run on newer versions of macOS!";
      "Notarizing the macOS build requires an Apple ID. To notarize future builds:";
      "* Set the environment variable AC_USERNAME to your@apple.id and";
      "* Either set AC_PASSWORD or ensure your keychain has an item for "
        +:+ DQ +:+ "Application Loader: your@apple.id" +:+ DQ
    ])) ;;;
    ret tt
  else
    let appleId := default "" (process.env proc !! "AC_USERNAME") in
    let appleIdKeychainItem := "Application Loader: " +:+ appleId in
    (if truthy_str (process.env proc !! "AC_PASSWORD") then
       emit (ConsoleLog ("Notarizing with Apple ID " +:+ DQ +:+ appleId +:+ DQ
                         +:+ " and a password"))
     else
       emit (ConsoleLog ("Notarizing with Apple ID " +:+ DQ +:+ appleId +:+ DQ
                         +:+ " and keychain item " +:+ DQ +:+ appleIdKeychainItem +:+ DQ))) ;;;
    let opts := {|
      appBundleId := appId;
      appPath := appOutDir context +:+ "/" +:+ productFilename context +:+ ".app";
      appleId := appleId;
      appleIdPassword :=
        default "" (js_or (process.env proc !! "AC_PASSWORD")
                          (Some ("@keychain:" +:+ appleIdKeychainItem)))
    |} in
    emit (Notarize opts) ;;;
    ([], notarize opts).

Definition afterSign (proc : process.t)
    (notarize : NotarizeOptions -> outcome unit) (context : Context) : M unit :=
  match targets context !! 0%nat with
  | None => throw (TypeError "Cannot read properties of undefined (reading 'name')")
  | Some firstTarget =>
      let firstTargetName := name firstTarget in
      if String.eqb firstTargetName "mas-dev" then ret tt
      else if String.eqb firstTargetName "mas" then ret tt
      else if String.eqb firstTargetName "dmg" then notarizeMacBuild proc notarize context
      else ret tt
  end.

End AfterSign.

(** ** Vocabulary of the statements *)

(** The space-separated tokens of a target name. *)
Fixpoint tokens_from (cur s : string) : list string :=
  match s with
  | EmptyString => [cur]
  | String c s' =>
      if Ascii.eqb c " "%char then cur :: tokens_from "" s'
      else tokens_from (cur +:+ String c "") s'
  end.

Definition tokens (s : string) : list string := tokens_from "" s.

(** [s] holds, at some position, a match of the regular expression of
    [parseArgs]: the flag followed by white space or by an equals sign. *)
Fixpoint hasModeFlag (s : string) : bool :=
  match Wrapper.matchMode s with
  | Some _ => true
  | None =>
      match s with
      | EmptyString => false
      | String _ s' => hasModeFlag s'
      end
  end.

(** Every code unit of [s] is white space. *)
Fixpoint allWhiteSpace (s : string) : bool :=
  match s with
  | EmptyString => true
  | String c s' => isWhiteSpace c && allWhiteSpace s'
  end.

(** The first code unit of [s], if any, is white space. *)
Definition startsWithWhiteSpace (s : string) : bool :=
  match s with
  | EmptyString => false
  | String c _ => isWhiteSpace c
  end.

(** The target name each spawned packager was given: the second argument of
    every [SpawnSync] event, in order. *)
Definition spawned_names (tr : list event) : list string :=
  omap (fun ev => match ev with
                  | SpawnSync _ (_ :: targetName :: _) _ => Some targetName
                  | _ => None
                  end) tr.

(** The notarization requests of a trace, in order. *)
Definition notarizations (tr : list event) : list NotarizeOptions :=
  omap (fun ev => match ev with Notarize opts => Some opts | _ => None end) tr.

(** The child reported neither a start error, nor a signal, nor a non-zero
    status. *)
Definition clean_exit (r : Wrapper.SpawnResult) : bool :=
  match Wrapper.error r with
  | Some _ => false
  | None => negb (truthy_str (Wrapper.signal r))
            && negb (Wrapper.truthy_status (Wrapper.status r))
  end.

(** The target types the planner uses. *)
Definition target_types : list string := ["appx"; "nsis"; "mas-dev"; "mas"; "dmg"].

(** The configuration [parseArgs] returns for the mode dir with the given
    passthrough arguments. *)
Definition dir_config (args : list string) : Wrapper.WrapperConfig :=
  {| Wrapper.builderArgs := args;
     Wrapper.doPackage := Some false;
     Wrapper.doSign := Some false;
     Wrapper.mode := "dir" |}.

(** An environment that holds all four code-signing keys and two others. *)
Definition sample_env : gmap string string :=
  <["CSC_LINK" := "cert.p12"]>
    (<["CSC_KEY_PASSWORD" := "secret"]>
       (<["WIN_CSC_LINK" := "win.p12"]>
          (<["WIN_CSC_KEY_PASSWORD" := "secret"]>
             (<["PATH" := "/usr/bin"]> {["HOME" := "/root"]})))).

(** * Properties *)

Import Wrapper.

(** ** Strings *)

Lemma indexOfFrom_pos (needle hay : string) (pos : Z) :
  (0 < pos)%Z -> indexOfFrom pos needle hay <> 0%Z.
Proof.
  revert pos. induction hay as [|c hay IH]; intros pos Hpos; cbn [indexOfFrom].
  - destruct (String.prefix needle ""); lia.
  - destruct (String.prefix needle (String c hay)); [lia|].
    apply IH. lia.
Qed.

Lemma indexOf_zero_prefix (hay needle : string) :
  (indexOf hay needle =? 0)%Z = String.prefix needle hay.
Proof.
  unfold indexOf. destruct hay as [|c hay]; cbn [indexOfFrom].
  - destruct (String.prefix needle ""); reflexivity.
  - destruct (String.prefix needle (String c hay)); [reflexivity|].
    apply Z.eqb_neq, indexOfFrom_pos. lia.
Qed.

Lemma append_cons (x : ascii) (a b : string) : String x a +:+ b = String x (a +:+ b).
Proof. reflexivity. Qed.

Lemma append_assoc (a b c : string) : (a +:+ b) +:+ c = a +:+ b +:+ c.
Proof.
  induction a as [|x a IH]; [reflexivity|].
  rewrite !append_cons. f_equal. exact IH.
Qed.

Lemma append_empty_r (a : string) : a +:+ "" = a.
Proof.
  induction a as [|x a IH]; [reflexivity|].
  rewrite append_cons. f_equal. exact IH.
Qed.

Lemma prefix_app (p s : string) : String.prefix p (p +:+ s) = true.
Proof.
  induction p as [|a p IH].
  - destruct s; reflexivity.
  - rewrite append_cons. simpl.
    destruct (ascii_dec a a); [exact IH | congruence].
Qed.

Lemma prefix_split (p s : string) :
  String.prefix p s = true -> exists rest, s = p +:+ rest.
Proof.
  revert s. induction p as [|a p IH]; intros s H.
  - exists s. reflexivity.
  - destruct s as [|b s]; simpl in H; [discriminate|].
    destruct (ascii_dec a b) as [->|]; [|discriminate].
    destruct (IH s H) as [rest ->]. exists rest. reflexivity.
Qed.

(** [isTargetOfType] is what its documentation says: the name is the type,
    or the type followed by a colon and anything. *)
Lemma isTargetOfType_spec (targetName targetType : string) :
  isTargetOfType targetName targetType = true <->
  targetName = targetType \/ exists rest, targetName = targetType +:+ ":" +:+ rest.
Proof.
  unfold isTargetOfType. rewrite indexOf_zero_prefix, orb_true_iff, String.eqb_eq.
  split; intros [H|H]; auto.
  - right. apply prefix_split in H as [rest ->]. exists rest.
    apply append_assoc.
  - right. destruct H as [rest ->].
    rewrite <- append_assoc. apply prefix_app.
Qed.

Example isTargetOfType_dmg_arm64 : isTargetOfType "dmg:arm64" "dmg" = true.
Proof. reflexivity. Qed.

Example isTargetOfType_dmg2 : isTargetOfType "dmg2" "dmg" = false.
Proof. reflexivity. Qed.

Example isTargetOfType_dmg : isTargetOfType "dmg" "dmg" = true.
Proof. reflexivity. Qed.

Lemma nsis_is_not_appx (targetName : string) :
  isTargetOfType targetName "nsis" = true -> isTargetOfType targetName "appx" = false.
Proof.
  intros H. unfold isTargetOfType at 1. rewrite indexOf_zero_prefix.
  apply isTargetOfType_spec in H as [->|[rest ->]]; reflexivity.
Qed.

(** ** Stripping the code-signing configuration *)

Lemma lookup_stripCSC_key (environment : gmap string string) (k : string) :
  k ∈ CSC_keys -> stripCSC environment !! k = None.
Proof.
  unfold CSC_keys. rewrite !elem_of_cons, elem_of_nil.
  intros [->|[->|[->|[->|[]]]]]; unfold stripCSC; by simplify_map_eq.
Qed.

Lemma lookup_stripCSC_other (environment : gmap string string) (k : string) :
  k ∉ CSC_keys -> stripCSC environment !! k = environment !! k.
Proof.
  intros Hk. unfold stripCSC.
  rewrite !lookup_delete_ne; [done|..]; intros <-; apply Hk;
    unfold CSC_keys; rewrite !elem_of_cons; tauto.
Qed.

Lemma dom_stripCSC (environment : gmap string string) :
  dom (stripCSC environment) = dom environment ∖ list_to_set CSC_keys.
Proof.
  apply set_eq. intros k.
  rewrite elem_of_difference, elem_of_list_to_set, !elem_of_dom.
  destruct (decide (k ∈ CSC_keys)) as [Hk|Hk].
  - rewrite lookup_stripCSC_key by done. split.
    + intros [v Hv]. discriminate.
    + tauto.
  - rewrite lookup_stripCSC_other by done. tauto.
Qed.

Lemma alloc_fresh (h : store) (obj : gmap string string) :
  h !! (alloc h obj).2 = None.
Proof. apply not_elem_of_dom, is_fresh. Qed.

(** C5. [stripCSC] returns a newly allocated mapping from which exactly the
    four keys CSC_LINK, CSC_KEY_PASSWORD, WIN_CSC_LINK and
    WIN_CSC_KEY_PASSWORD are absent and in which every other key keeps its
    value; the argument object, like every other object of the store, is left
    as it was; and the call succeeds whichever of the four keys the argument
    holds. *)
Theorem stripCSC_fresh_copy (h : store) (environment : loc) (obj : gmap string string) :
  h !! environment = Some obj ->
  exists h' r,
    stripCSC_ref h environment = Some (h', r) /\
    h !! r = None /\
    h' !! r = Some (stripCSC obj) /\
    h' !! environment = Some obj /\
    (forall r0, r0 <> r -> h' !! r0 = h !! r0) /\
    (forall k, k ∈ CSC_keys -> stripCSC obj !! k = None) /\
    (forall k, k ∉ CSC_keys -> stripCSC obj !! k = obj !! k) /\
    dom (stripCSC obj) = dom obj ∖ list_to_set CSC_keys.
Proof.
  intros Hobj. unfold stripCSC_ref. rewrite Hobj.
  pose proof (alloc_fresh h (stripCSC obj)) as Hfresh.
  unfold alloc, store, loc in *. simpl in Hfresh.
  set (r := fresh (dom h)) in *.
  assert (Hne : r <> environment) by congruence.
  exists (<[r := stripCSC obj]> h), r.
  split; [reflexivity|].
  split; [exact Hfresh|].
  split; [apply lookup_insert_eq|].
  split; [by rewrite lookup_insert_ne|].
  split; [intros r0 Hr0; by rewrite lookup_insert_ne|].
  split; [apply lookup_stripCSC_key|].
  split; [apply lookup_stripCSC_other|apply dom_stripCSC].
Qed.

Lemma stripCSC_fresh_copy_witness :
  exists h' r,
    stripCSC_ref {[0%nat := sample_env]} 0%nat = Some (h', r) /\
    r <> 0%nat /\
    h' !! 0%nat = Some sample_env /\
    h' !! r = Some (<["PATH" := "/usr/bin"]> {["HOME" := "/root"]}).
Proof.
  destruct (stripCSC_fresh_copy {[0%nat := sample_env]} 0%nat sample_env
              (lookup_singleton_eq 0%nat sample_env))
    as (h' & r & Hcall & Hnew & Hr & Hold & _).
  exists h', r. split; [exact Hcall|]. split; [|split; [exact Hold|exact Hr]].
  intros ->. unfold store, loc in *.
  rewrite lookup_singleton_eq in Hnew. discriminate.
Defined.

(** C10. [stripCSC] is idempotent. *)
Theorem stripCSC_idempotent (environment : gmap string string) :
  stripCSC (stripCSC environment) = stripCSC environment.
Proof.
  apply map_eq. intros k.
  destruct (decide (k ∈ CSC_keys)) as [Hk|Hk].
  - by rewrite !lookup_stripCSC_key.
  - by rewrite lookup_stripCSC_other.
Qed.

(** ** The build runner *)

Lemma bind_throw {A B} (tr : list event) (e : exn) (k : A -> M B) :
  bind (tr, Throw e) k = (tr, Throw e).
Proof. reflexivity. Qed.

(** A signed NSIS pass keeps the environment of the wrapper itself. *)
Lemma childEnvironment_signed_nsis proc wrapperConfig target :
  doSign wrapperConfig = Some true ->
  isTargetOfType (name target) "nsis" = true ->
  childEnvironment proc wrapperConfig target = process.env proc.
Proof.
  intros Hsign Hnsis. unfold childEnvironment, shouldStripCSC.
  rewrite Hsign, (nsis_is_not_appx _ Hnsis). reflexivity.
Qed.

(** C1. With [doSign] true and a target of type nsis (the name is nsis, or
    begins with nsis and a colon), when neither CSC_LINK nor WIN_CSC_LINK is
    present in the environment meant for the child process, [runBuilder]
    throws the missing-credentials error and its trace is empty: nothing was
    logged and no child process was spawned. That environment is the
    unstripped [process.env]. *)
Theorem runBuilder_nsis_missing_credentials proc spawnSync wrapperConfig target :
  doSign wrapperConfig = Some true ->
  (name target = "nsis" \/ exists rest, name target = "nsis:" +:+ rest) ->
  childEnvironment proc wrapperConfig target !! "CSC_LINK" = None ->
  childEnvironment proc wrapperConfig target !! "WIN_CSC_LINK" = None ->
  childEnvironment proc wrapperConfig target = process.env proc /\
  runBuilder proc spawnSync wrapperConfig target =
    ([], Throw (Error "Signing NSIS build requires CSC_LINK or WIN_CSC_LINK")) /\
  Forall (fun ev => is_spawn ev = false)
         (trace (runBuilder proc spawnSync wrapperConfig target)).
Proof.
  intros Hsign Hname Hcsc Hwin.
  assert (Hnsis : isTargetOfType (name target) "nsis" = true).
  { apply isTargetOfType_spec. destruct Hname as [->|[rest ->]]; eauto. }
  assert (Hrun : runBuilder proc spawnSync wrapperConfig target =
                 ([], Throw (Error "Signing NSIS build requires CSC_LINK or WIN_CSC_LINK"))).
  { unfold runBuilder. rewrite Hsign, Hnsis, Hcsc, Hwin. reflexivity. }
  split; [by apply childEnvironment_signed_nsis|].
  split; [exact Hrun|].
  rewrite Hrun. constructor.
Qed.

Lemma runBuilder_nsis_missing_credentials_witness :
  runBuilder
    {| process.platform := "win32";
       process.env := {["PATH" := "C:\Windows"]};
       process.argv := ["node"; "electron-builder-wrapper.js"; "--mode=dist"] |}
    (fun _ _ _ => {| error := None; signal := None; status := Some 0%Z |})
    {| builderArgs := []; doPackage := Some true; doSign := Some true; mode := "dist" |}
    {| platform := "win32"; name := "nsis:ia32" |}
  = ([], Throw (Error "Signing NSIS build requires CSC_LINK or WIN_CSC_LINK")).
Proof.
  refine (proj1 (proj2 (runBuilder_nsis_missing_credentials _ _ _ _ _ _ _ _)));
    try reflexivity.
  right. exists "ia32". reflexivity.
Defined.

(** The same pass with a certificate in the environment goes on to spawn the
    packager, with the environment unchanged. *)
Example runBuilder_nsis_with_credentials :
  runBuilder
    {| process.platform := "win32";
       process.env := {["CSC_LINK" := "cert.p12"]};
       process.argv := ["node"; "electron-builder-wrapper.js"; "--mode=dist"] |}
    (fun _ _ _ => {| error := None; signal := None; status := Some 0%Z |})
    {| builderArgs := []; doPackage := Some true; doSign := Some true; mode := "dist" |}
    {| platform := "win32"; name := "nsis:ia32" |}
  = ([ ConsoleLog "running electron-builder with arguments: --windows,nsis:ia32";
       SpawnSync "electron-builder" ["--windows"; "nsis:ia32"]
                 {["CSC_LINK" := "cert.p12"]} ],
     Return tt).
Proof. reflexivity. Qed.

(** The appx pass never sees the certificate, and a failing child aborts. *)
Example runBuilder_appx_strips_credentials :
  runBuilder
    {| process.platform := "win32";
       process.env := <["CSC_LINK" := "cert.p12"]> {["PATH" := "C:\Windows"]};
       process.argv := ["node"; "electron-builder-wrapper.js"; "--mode=dist"] |}
    (fun _ _ _ => {| error := None; signal := None; status := Some 2%Z |})
    {| builderArgs := ["--publish=never"]; doPackage := Some true; doSign := Some true;
       mode := "dist" |}
    {| platform := "win32"; name := "appx:x64 appx:ia32 appx:arm64" |}
  = ([ ConsoleLog ("running electron-builder with arguments: "
                   +:+ "--windows,appx:x64 appx:ia32 appx:arm64,--publish=never");
       SpawnSync "electron-builder"
                 ["--windows"; "appx:x64 appx:ia32 appx:arm64"; "--publish=never"]
                 {["PATH" := "C:\Windows"]} ],
     Throw (Error "Child process returned status code 2")).
Proof. reflexivity. Qed.

(** ** The target planner *)

(** C4. On win32 the planner returns exactly two passes: first the appx pass,
    whose name is the three tokens appx:x64, appx:ia32 and appx:arm64 joined
    by spaces in that order, then the nsis pass, whose name is the single
    token nsis:ia32. *)
Theorem calculateTargets_win32 proc fs wrapperConfig :
  process.platform proc = "win32" ->
  calculateTargets proc fs wrapperConfig =
    ([], Return [ {| platform := "win32"; name := "appx:x64 appx:ia32 appx:arm64" |};
                  {| platform := "win32"; name := "nsis:ia32" |} ]) /\
  tokens "appx:x64 appx:ia32 appx:arm64" = ["appx:x64"; "appx:ia32"; "appx:arm64"] /\
  tokens "nsis:ia32" = ["nsis:ia32"].
Proof.
  intros Hplat. unfold calculateTargets. rewrite Hplat. repeat split.
Qed.

Lemma calculateTargets_win32_witness :
  calculateTargets
    {| process.platform := "win32"; process.env := ∅; process.argv := [] |}
    ∅
    {| builderArgs := []; doPackage := Some true; doSign := Some false; mode := "dev" |}
  = ([], Return [ {| platform := "win32"; name := "appx:x64 appx:ia32 appx:arm64" |};
                  {| platform := "win32"; name := "nsis:ia32" |} ]).
Proof.
  refine (proj1 (calculateTargets_win32 _ _ _ _)). reflexivity.
Defined.

Lemma existsSync_true (fs : gset string) (path : string) :
  existsSync fs path = true <-> path ∈ fs.
Proof. unfold existsSync. apply bool_decide_eq_true. Qed.

Lemma truthy_bool_true (v : option bool) : truthy_bool v = true <-> v = Some true.
Proof. destruct v as [[|]|]; simpl; split; congruence. Qed.

(** Membership of a pass in an explicit list of passes. *)
Ltac pass_membership :=
  rewrite ?elem_of_cons, ?elem_of_nil;
  split; intros H;
  repeat match goal with
         | H : _ \/ _ |- _ => destruct H
         | H : False |- _ => destruct H
         | H : {| platform := _; name := _ |} = _ |- _ => discriminate H
         | H : true = false |- _ => discriminate H
         | H : false = true |- _ => discriminate H
         | H : None = Some _ |- _ => discriminate H
         | H : Some _ = Some _ |- _ => discriminate H
         end;
  auto.

(** C3. On darwin the planner returns, in this order: the mas-dev pass (x64
    and arm64) exactly when the file mas-dev.provisionprofile exists, the mas
    pass (same architectures) exactly when [doSign] is true, and in every case
    the dmg pass (same architectures), which is last. *)
Theorem calculateTargets_darwin proc fs wrapperConfig :
  process.platform proc = "darwin" ->
  exists targets,
    result (calculateTargets proc fs wrapperConfig) = Return targets /\
    targets =
      (if existsSync fs "mas-dev.provisionprofile"
       then [ {| platform := "darwin"; name := "mas-dev:x64 mas-dev:arm64" |} ] else [])
      ++ (if truthy_bool (doSign wrapperConfig)
          then [ {| platform := "darwin"; name := "mas:x64 mas:arm64" |} ] else [])
      ++ [ {| platform := "darwin"; name := "dmg:x64 dmg:arm64" |} ] /\
    ({| platform := "darwin"; name := "mas-dev:x64 mas-dev:arm64" |} ∈ targets
       <-> "mas-dev.provisionprofile" ∈ fs) /\
    ({| platform := "darwin"; name := "mas:x64 mas:arm64" |} ∈ targets
       <-> doSign wrapperConfig = Some true) /\
    last targets = Some {| platform := "darwin"; name := "dmg:x64 dmg:arm64" |} /\
    tokens "mas-dev:x64 mas-dev:arm64" = ["mas-dev:x64"; "mas-dev:arm64"] /\
    tokens "mas:x64 mas:arm64" = ["mas:x64"; "mas:arm64"] /\
    tokens "dmg:x64 dmg:arm64" = ["dmg:x64"; "dmg:arm64"].
Proof.
  intros Hplat. eexists. split; [|split; [reflexivity|]].
  - unfold calculateTargets. rewrite Hplat.
    destruct (existsSync fs "mas-dev.provisionprofile"),
             (truthy_bool (doSign wrapperConfig)); reflexivity.
  - rewrite <- existsSync_true, <- truthy_bool_true.
    destruct (existsSync fs "mas-dev.provisionprofile"),
             (truthy_bool (doSign wrapperConfig)); cbn [app];
      (split; [pass_membership|]);
      (split; [pass_membership|]);
      repeat split.
Qed.

Lemma calculateTargets_darwin_witness :
  exists targets,
    result (calculateTargets
              {| process.platform := "darwin"; process.env := ∅; process.argv := [] |}
              {["mas-dev.provisionprofile"]}
              {| builderArgs := []; doPackage := Some true; doSign := Some true;
                 mode := "dist" |}) = Return targets /\
    length targets = 3%nat.
Proof.
  destruct (calculateTargets_darwin
              {| process.platform := "darwin"; process.env := ∅; process.argv := [] |}
              {["mas-dev.provisionprofile"]}
              {| builderArgs := []; doPackage := Some true; doSign := Some true;
                 mode := "dist" |} eq_refl)
    as (targets & Hres & -> & _).
  exists (
      [ {| platform := "darwin"; name := "mas-dev:x64 mas-dev:arm64" |};
        {| platform := "darwin"; name := "mas:x64 mas:arm64" |};
        {| platform := "darwin"; name := "dmg:x64 dmg:arm64" |} ]).
  split; [exact Hres | reflexivity].
Defined.

(** C8. On win32 and on darwin the planner returns a non-empty list of
    passes; on every other platform it throws the error that names the
    platform, and returns nothing. *)
Theorem calculateTargets_supported_or_throws proc fs wrapperConfig :
  (process.platform proc = "win32" \/ process.platform proc = "darwin" ->
   exists targets,
     result (calculateTargets proc fs wrapperConfig) = Return targets /\
     targets <> []) /\
  (process.platform proc <> "win32" -> process.platform proc <> "darwin" ->
   calculateTargets proc fs wrapperConfig =
     ([], Throw (Error ("Could not determine targets for platform: "
                        +:+ process.platform proc)))).
Proof.
  split.
  - intros [Hplat|Hplat]; unfold calculateTargets; rewrite Hplat.
    + eexists. split; [reflexivity | discriminate].
    + destruct (existsSync fs "mas-dev.provisionprofile"),
               (truthy_bool (doSign wrapperConfig));
        (eexists; split; [reflexivity | discriminate]).
  - intros Hwin Hmac. unfold calculateTargets.
    apply String.eqb_neq in Hwin, Hmac. rewrite Hwin, Hmac. reflexivity.
Qed.

Lemma calculateTargets_supported_or_throws_witness :
  calculateTargets
    {| process.platform := "linux"; process.env := ∅; process.argv := [] |}
    ∅
    {| builderArgs := []; doPackage := Some true; doSign := Some false; mode := "dev" |}
  = ([], Throw (Error "Could not determine targets for platform: linux")).
Proof.
  refine (proj2 (calculateTargets_supported_or_throws _ _ _) _ _); discriminate.
Defined.

(** ** Argument parsing: the mode and the flags derived from it *)

(** C7. In the configuration [parseArgs] returns, the mode fixes both flags:
    dev gives doPackage true and doSign false, dir gives both false, dist
    gives both true; so a recognised mode yields one of these three pairs and
    no other. *)
Theorem parseArgs_flags_determined_by_mode proc :
  let config := parseArgs proc in
  (mode config = "dev" ->
   doPackage config = Some true /\ doSign config = Some false) /\
  (mode config = "dir" ->
   doPackage config = Some false /\ doSign config = Some false) /\
  (mode config = "dist" ->
   doPackage config = Some true /\ doSign config = Some true) /\
  (mode config ∈ ["dev"; "dir"; "dist"] ->
   (doPackage config, doSign config) ∈
     [(Some true, Some false); (Some false, Some false); (Some true, Some true)]).
Proof.
  unfold parseArgs.
  destruct (fold_left parseArgs_step (drop 2 (process.argv proc)) ("dev", []))
    as [m args].
  destruct (String.eqb_spec m "dev") as [->|Hdev]; [|
  destruct (String.eqb_spec m "dir") as [->|Hdir]; [|
  destruct (String.eqb_spec m "dist") as [->|Hdist]]]; cbn;
    (repeat split; try discriminate; try congruence);
    rewrite ?elem_of_cons, ?elem_of_nil; intros; intuition congruence.
Qed.

Lemma parseArgs_flags_determined_by_mode_witness :
  mode (parseArgs {| process.platform := "darwin"; process.env := ∅;
                     process.argv := ["node"; "electron-builder-wrapper.js";
                                      "--mode=dist"] |}) = "dist" /\
  doPackage (parseArgs {| process.platform := "darwin"; process.env := ∅;
                          process.argv := ["node"; "electron-builder-wrapper.js";
                                           "--mode=dist"] |}) = Some true /\
  doSign (parseArgs {| process.platform := "darwin"; process.env := ∅;
                       process.argv := ["node"; "electron-builder-wrapper.js";
                                        "--mode=dist"] |}) = Some true.
Proof.
  split; [reflexivity|].
  refine (proj1 (proj2 (proj2 (parseArgs_flags_determined_by_mode _))) _).
  reflexivity.
Defined.

(** ** The afterSign hook *)

(** C9. With an empty list of targets the hook throws while reading the name
    of the first target: nothing guards that access, nothing is logged and no
    notarization is requested. *)
Theorem afterSign_empty_targets_throws proc notarize context :
  AfterSign.targets context = [] ->
  exists message,
    AfterSign.afterSign proc notarize context = ([], Throw (TypeError message)).
Proof.
  intros Hempty. unfold AfterSign.afterSign. rewrite Hempty.
  eexists. reflexivity.
Qed.

Lemma afterSign_empty_targets_throws_witness :
  exists message,
    AfterSign.afterSign
      {| process.platform := "darwin"; process.env := ∅; process.argv := [] |}
      (fun _ => Return tt)
      {| AfterSign.appOutDir := "dist/mac"; AfterSign.productFilename := "Scratch";
         AfterSign.targets := [] |}
    = ([], Throw (TypeError message)).
Proof.
  apply afterSign_empty_targets_throws. reflexivity.
Defined.

Lemma truthy_str_nonempty (s : string) : s <> "" -> truthy_str (Some s) = true.
Proof. intros Hs. simpl. apply String.eqb_neq in Hs. by rewrite Hs. Qed.

(** C6, as the claim words it, fails when AC_USERNAME is set to the empty
    string: the first target is dmg, AC_USERNAME is set and AC_PASSWORD is
    not, yet the hook prints the warning and returns without any notarization
    request. *)
Lemma afterSign_dmg_empty_username_not_submitted :
  process.env {| process.platform := "darwin";
                 process.env := {["AC_USERNAME" := ""]};
                 process.argv := [] |} !! "AC_USERNAME" = Some "" /\
  process.env {| process.platform := "darwin";
                 process.env := {["AC_USERNAME" := ""]};
                 process.argv := [] |} !! "AC_PASSWORD" = None /\
  filter (fun ev => is_notarize ev = true)
    (trace (AfterSign.afterSign
              {| process.platform := "darwin";
                 process.env := {["AC_USERNAME" := ""]};
                 process.argv := [] |}
              (fun _ => Return tt)
              {| AfterSign.appOutDir := "dist/mac";
                 AfterSign.productFilename := "Scratch";
                 AfterSign.targets := [ {| AfterSign.name := "dmg" |} ] |})) = [] /\
  result (AfterSign.afterSign
            {| process.platform := "darwin";
               process.env := {["AC_USERNAME" := ""]};
               process.argv := [] |}
            (fun _ => Return tt)
            {| AfterSign.appOutDir := "dist/mac";
               AfterSign.productFilename := "Scratch";
               AfterSign.targets := [ {| AfterSign.name := "dmg" |} ] |}) = Return tt.
Proof. repeat split. Qed.

(** C6, amended. The hook looks at the name of the first target only.
    - mas or mas-dev: it returns at once, with no notarization request.
    - dmg with AC_USERNAME unset: it prints one warning on the error stream
      and returns normally, with no notarization request.
    - dmg with AC_USERNAME set to a non-empty value and AC_PASSWORD unset: it
      logs one line and submits one notarization request for that Apple ID,
      whose password field is the keychain reference made of the prefix
      keychain, the item name Application Loader and the Apple ID; the hook
      ends as the request ends.
    - any other name: it returns at once, with no action. *)
Theorem afterSign_by_first_target proc notarize context first rest :
  AfterSign.targets context = first :: rest ->
  (AfterSign.name first = "mas" \/ AfterSign.name first = "mas-dev" ->
   AfterSign.afterSign proc notarize context = ([], Return tt)) /\
  (AfterSign.name first = "dmg" ->
   process.env proc !! "AC_USERNAME" = None ->
   exists warning,
     AfterSign.afterSign proc notarize context = ([ConsoleError warning], Return tt)) /\
  (AfterSign.name first = "dmg" ->
   forall user,
     process.env proc !! "AC_USERNAME" = Some user ->
     user <> "" ->
     process.env proc !! "AC_PASSWORD" = None ->
     exists line opts,
       AfterSign.afterSign proc notarize context
         = ([ConsoleLog line; Notarize opts], notarize opts) /\
       appleId opts = user /\
       appleIdPassword opts = "@keychain:Application Loader: " +:+ user) /\
  (AfterSign.name first <> "mas" ->
   AfterSign.name first <> "mas-dev" ->
   AfterSign.name first <> "dmg" ->
   AfterSign.afterSign proc notarize context = ([], Return tt)).
Proof.
  intros Htargets. unfold AfterSign.afterSign. rewrite Htargets. cbn [lookup list_lookup].
  repeat apply conj.
  - intros [-> | ->]; reflexivity.
  - intros -> Huser. cbn. unfold AfterSign.notarizeMacBuild.
    rewrite Huser. eexists. reflexivity.
  - intros -> user Huser Hnonempty Hpass. cbn. unfold AfterSign.notarizeMacBuild.
    rewrite Huser, Hpass, (truthy_str_nonempty _ Hnonempty). cbn.
    destruct (notarize _) eqn:Hcall;
      (eexists; eexists; split; [rewrite Hcall; reflexivity | split; reflexivity]).
  - intros Hmas Hdev Hdmg.
    apply String.eqb_neq in Hmas, Hdev, Hdmg. rewrite Hmas, Hdev, Hdmg. reflexivity.
Qed.

Lemma afterSign_by_first_target_witness :
  exists line opts,
    AfterSign.afterSign
      {| process.platform := "darwin";
         process.env := {["AC_USERNAME" := "dev@example.org"]};
         process.argv := [] |}
      (fun _ => Return tt)
      {| AfterSign.appOutDir := "dist/mac";
         AfterSign.productFilename := "Scratch";
         AfterSign.targets := [ {| AfterSign.name := "dmg" |} ] |}
    = ([ConsoleLog line; Notarize opts], Return tt) /\
    appleId opts = "dev@example.org" /\
    appleIdPassword opts = "@keychain:Application Loader: dev@example.org".
Proof.
  refine (proj1 (proj2 (proj2
            (afterSign_by_first_target
               {| process.platform := "darwin";
                  process.env := {["AC_USERNAME" := "dev@example.org"]};
                  process.argv := [] |}
               (fun _ => Return tt)
               {| AfterSign.appOutDir := "dist/mac";
                  AfterSign.productFilename := "Scratch";
                  AfterSign.targets := [ {| AfterSign.name := "dmg" |} ] |}
               {| AfterSign.name := "dmg" |} [] eq_refl)))
            eq_refl "dev@example.org" _ _ _).
  - reflexivity.
  - discriminate.
  - reflexivity.
Defined.

(** ** Argument parsing: the split and the loop *)

Lemma stripPrefix_length (p s rest : string) :
  stripPrefix p s = Some rest ->
  String.length s = (String.length p + String.length rest)%nat.
Proof.
  revert s. induction p as [|a p IH]; intros s H; simpl in H.
  - injection H as ->. reflexivity.
  - destruct s as [|b s]; [discriminate|].
    destruct (Ascii.eqb a b); [|discriminate].
    simpl. f_equal. by apply IH.
Qed.

Lemma spanWhiteSpace_length (s ws rest : string) :
  spanWhiteSpace s = (ws, rest) ->
  String.length s = (String.length ws + String.length rest)%nat.
Proof.
  revert ws rest. induction s as [|c s IH]; intros ws rest H; simpl in H.
  - injection H as <- <-. reflexivity.
  - destruct (isWhiteSpace c).
    + destruct (spanWhiteSpace s) as [ws' rest'] eqn:Hspan.
      injection H as <- <-. simpl. f_equal. by apply IH.
    + injection H as <- <-. reflexivity.
Qed.

(** A match consumes at least the seven code units of the flag and one more. *)
Lemma matchMode_consumes (s cap rest : string) :
  matchMode s = Some (cap, rest) ->
  (String.length rest < String.length s)%nat.
Proof.
  unfold matchMode. intros H.
  destruct (stripPrefix "--mode" s) as [s1|] eqn:Hflag; [|discriminate].
  apply stripPrefix_length in Hflag. simpl in Hflag.
  destruct (spanWhiteSpace s1) as [ws rest'] eqn:Hspan.
  apply spanWhiteSpace_length in Hspan.
  destruct ws as [|c ws].
  - destruct s1 as [|c1 s1]; [discriminate|].
    destruct c1 as [[] [] [] [] [] [] [] []]; try discriminate.
    injection H as <- <-. simpl in *. lia.
  - injection H as <- <-. simpl in *. lia.
Qed.

(** The fuel [splitMode] provides is enough: any larger amount gives the
    same list, so the exhausted branch of [splitLoop] is never taken. *)
Lemma splitLoop_fuel (fuel1 fuel2 : nat) (piece s : string) :
  (String.length s < fuel1)%nat -> (String.length s < fuel2)%nat ->
  splitLoop fuel1 piece s = splitLoop fuel2 piece s.
Proof.
  revert fuel2 piece s.
  induction fuel1 as [|fuel1 IH]; intros fuel2 piece s H1 H2; [lia|].
  destruct fuel2 as [|fuel2]; [lia|].
  destruct s as [|c s]; [reflexivity|].
  cbn [splitLoop].
  destruct (matchMode (String c s)) as [[cap rest]|] eqn:Hmatch.
  - apply matchMode_consumes in Hmatch. simpl in *.
    do 2 f_equal. apply IH; lia.
  - simpl in *. apply IH; lia.
Qed.

Lemma splitLoop_no_flag (fuel : nat) (piece s : string) :
  hasModeFlag s = false ->
  (String.length s < fuel)%nat ->
  splitLoop fuel piece s = [piece +:+ s].
Proof.
  revert fuel piece. induction s as [|c s IH]; intros fuel piece Hflag Hfuel.
  - destruct fuel; [simpl in Hfuel; lia|]. simpl. by rewrite append_empty_r.
  - destruct fuel as [|fuel]; [lia|].
    cbn [splitLoop]. cbn [hasModeFlag] in Hflag.
    destruct (matchMode (String c s)); [discriminate|].
    rewrite IH; [|exact Hflag|simpl in Hfuel; lia].
    by rewrite append_assoc.
Qed.

(** A token without the flag is not split. *)
Lemma splitMode_no_flag (arg : string) :
  hasModeFlag arg = false -> splitMode arg = [arg].
Proof.
  intros H. unfold splitMode. rewrite splitLoop_no_flag; [reflexivity|exact H|lia].
Qed.

Lemma spanWhiteSpace_run (ws value : string) :
  allWhiteSpace ws = true ->
  startsWithWhiteSpace value = false ->
  spanWhiteSpace (ws +:+ value) = (ws, value).
Proof.
  intros Hws Hvalue. induction ws as [|c ws IH].
  - destruct value as [|v value]; [reflexivity|].
    simpl in *. by rewrite Hvalue.
  - simpl in Hws. apply andb_true_iff in Hws as [Hc Hws].
    rewrite append_cons. simpl. rewrite Hc, (IH Hws). reflexivity.
Qed.

(** The equals form: the group captures the sign, the rest is the value. *)
Lemma matchMode_equals (value : string) :
  matchMode ("--mode=" +:+ value) = Some ("=", value).
Proof. reflexivity. Qed.

(** The white-space form: the group captures the whole run of white space. *)
Lemma matchMode_space (ws value : string) :
  ws <> "" ->
  allWhiteSpace ws = true ->
  startsWithWhiteSpace value = false ->
  matchMode ("--mode" +:+ ws +:+ value) = Some (ws, value).
Proof.
  intros Hne Hws Hvalue. unfold matchMode.
  change (stripPrefix "--mode" ("--mode" +:+ ws +:+ value)) with (Some (ws +:+ value)).
  cbv beta iota.
  rewrite (spanWhiteSpace_run _ _ Hws Hvalue).
  destruct ws; [congruence | reflexivity].
Qed.

Lemma length_append (a b : string) :
  String.length (a +:+ b) = (String.length a + String.length b)%nat.
Proof.
  induction a as [|x a IH]; [reflexivity|].
  rewrite append_cons. simpl. by rewrite IH.
Qed.

Lemma splitMode_equals (value : string) :
  hasModeFlag value = false ->
  splitMode ("--mode=" +:+ value) = [""; "="; value].
Proof.
  intros Hvalue. unfold splitMode.
  pose proof (matchMode_equals value) as Hmatch.
  assert (Hlen : (String.length value
                  < String.length (String "-" ("-mode=" +:+ value)))%nat).
  { simpl. rewrite length_append. simpl. lia. }
  change ("--mode=" +:+ value) with (String "-" ("-mode=" +:+ value)) in *.
  cbn [splitLoop]. rewrite Hmatch.
  rewrite splitLoop_no_flag; [reflexivity | exact Hvalue | exact Hlen].
Qed.

Lemma splitMode_space (ws value : string) :
  ws <> "" ->
  allWhiteSpace ws = true ->
  startsWithWhiteSpace value = false ->
  hasModeFlag value = false ->
  splitMode ("--mode" +:+ ws +:+ value) = [""; ws; value].
Proof.
  intros Hne Hws Hstart Hvalue. unfold splitMode.
  pose proof (matchMode_space ws value Hne Hws Hstart) as Hmatch.
  assert (Hlen : (String.length value
                  < String.length (String "-" ("-mode" +:+ ws +:+ value)))%nat).
  { simpl. rewrite !length_append. simpl. lia. }
  change ("--mode" +:+ ws +:+ value) with (String "-" ("-mode" +:+ ws +:+ value)) in *.
  cbn [splitLoop]. rewrite Hmatch.
  rewrite splitLoop_no_flag; [reflexivity | exact Hvalue | exact Hlen].
Qed.

Lemma parseArgs_step_no_flag (mode arg : string) (acc : list string) :
  hasModeFlag arg = false ->
  parseArgs_step (mode, acc) arg = (mode, acc ++ [arg]).
Proof. intros H. unfold parseArgs_step. by rewrite (splitMode_no_flag _ H). Qed.

Lemma parseArgs_step_mode (mode token piece cap value : string) (acc : list string) :
  splitMode token = [piece; cap; value] ->
  parseArgs_step (mode, acc) token = (value, acc).
Proof. intros H. unfold parseArgs_step. by rewrite H. Qed.

(** The loop over tokens without the flag: the mode stays, the tokens are
    appended in order. *)
Lemma parseArgs_loop_no_flag (args : list string) (mode : string) (acc : list string) :
  Forall (fun arg => hasModeFlag arg = false) args ->
  fold_left parseArgs_step args (mode, acc) = (mode, acc ++ args).
Proof.
  intros Hargs. revert acc.
  induction Hargs as [|arg args Harg _ IH]; intros acc; cbn [fold_left].
  - by rewrite app_nil_r.
  - rewrite (parseArgs_step_no_flag _ _ _ Harg), IH. by rewrite <- app_assoc.
Qed.

(** The loop over a list with one token that splits in three. *)
Lemma parseArgs_loop_one_mode (pre post : list string) (token cap value : string) :
  Forall (fun arg => hasModeFlag arg = false) pre ->
  Forall (fun arg => hasModeFlag arg = false) post ->
  splitMode token = [""; cap; value] ->
  fold_left parseArgs_step (pre ++ token :: post) ("dev", []) = (value, pre ++ post).
Proof.
  intros Hpre Hpost Hsplit.
  rewrite fold_left_app, (parseArgs_loop_no_flag _ _ _ Hpre). cbn [fold_left app].
  rewrite (parseArgs_step_mode _ _ _ _ _ _ Hsplit).
  apply parseArgs_loop_no_flag. exact Hpost.
Qed.

Lemma parseArgs_of_loop proc (m : string) (args : list string) :
  fold_left parseArgs_step (drop 2 (process.argv proc)) ("dev", []) = (m, args) ->
  mode (parseArgs proc) = m /\ builderArgs (parseArgs proc) = args.
Proof.
  intros Hloop. unfold parseArgs. rewrite Hloop.
  destruct (String.eqb m "dev"), (String.eqb m "dir"), (String.eqb m "dist");
    split; reflexivity.
Qed.

(** C2. The claim holds for the equals form, but the code misses the form
    with the flag and its value as two successive tokens. The regular
    expression has a white-space alternative for that form, yet the split is
    applied to each token of [process.argv] on its own: on the tokens --mode
    and dist neither matches, the mode stays dev, signing stays off and both
    tokens are forwarded to the packager. The same text arriving as the one
    token made of the flag, a space and dist does set the mode to dist and
    forwards nothing. *)
Theorem parseArgs_two_token_mode_not_recognised :
  (mode (parseArgs {| process.platform := "win32"; process.env := ∅;
                      process.argv := ["node"; "electron-builder-wrapper.js";
                                       "--mode"; "dist"] |}) = "dev" /\
   builderArgs (parseArgs {| process.platform := "win32"; process.env := ∅;
                             process.argv := ["node"; "electron-builder-wrapper.js";
                                              "--mode"; "dist"] |}) = ["--mode"; "dist"] /\
   doSign (parseArgs {| process.platform := "win32"; process.env := ∅;
                        process.argv := ["node"; "electron-builder-wrapper.js";
                                         "--mode"; "dist"] |}) = Some false /\
   mode (parseArgs {| process.platform := "win32"; process.env := ∅;
                      process.argv := ["node"; "electron-builder-wrapper.js";
                                       "--mode"; "dist"] |}) <> "dist") /\
  (splitMode "--mode" = ["--mode"] /\ splitMode "dist" = ["dist"]) /\
  (splitMode "--mode dist" = [""; " "; "dist"] /\
   mode (parseArgs {| process.platform := "win32"; process.env := ∅;
                      process.argv := ["node"; "electron-builder-wrapper.js";
                                       "--mode dist"] |}) = "dist" /\
   builderArgs (parseArgs {| process.platform := "win32"; process.env := ∅;
                             process.argv := ["node"; "electron-builder-wrapper.js";
                                              "--mode dist"] |}) = []).
Proof. repeat split. discriminate. Qed.

(** The forms of the mode token the loop does recognise, each inside a single
    token: the flag, an equals sign and the value; or the flag, a non-empty
    run of white space and a value that does not begin with white space. The
    other tokens and the value hold no flag followed by white space or an
    equals sign. The mode is the value, and the other tokens make up
    builderArgs, verbatim and in their original order. *)
Lemma parseArgs_single_token_mode proc node script pre post value :
  Forall (fun arg => hasModeFlag arg = false) pre ->
  Forall (fun arg => hasModeFlag arg = false) post ->
  hasModeFlag value = false ->
  (process.argv proc = node :: script :: pre ++ ("--mode=" +:+ value) :: post ->
   mode (parseArgs proc) = value /\ builderArgs (parseArgs proc) = pre ++ post) /\
  (forall ws,
     ws <> "" -> allWhiteSpace ws = true -> startsWithWhiteSpace value = false ->
     process.argv proc = node :: script :: pre ++ ("--mode" +:+ ws +:+ value) :: post ->
     mode (parseArgs proc) = value /\ builderArgs (parseArgs proc) = pre ++ post).
Proof.
  intros Hpre Hpost Hvalue. repeat apply conj.
  - intros Hargv. apply parseArgs_of_loop. rewrite Hargv. cbn [drop].
    apply (parseArgs_loop_one_mode _ _ _ "="); auto using splitMode_equals.
  - intros ws Hne Hws Hstart Hargv. apply parseArgs_of_loop. rewrite Hargv. cbn [drop].
    apply (parseArgs_loop_one_mode _ _ _ ws); auto using splitMode_space.
Qed.

Lemma parseArgs_single_token_mode_equals :
  mode (parseArgs {| process.platform := "win32"; process.env := ∅;
                     process.argv := ["node"; "electron-builder-wrapper.js";
                                      "--x64"; "--mode=dist"; "--publish=never"] |})
    = "dist" /\
  builderArgs (parseArgs {| process.platform := "win32"; process.env := ∅;
                            process.argv := ["node"; "electron-builder-wrapper.js";
                                             "--x64"; "--mode=dist"; "--publish=never"] |})
    = ["--x64"; "--publish=never"].
Proof.
  refine (proj1 (parseArgs_single_token_mode
                   {| process.platform := "win32"; process.env := ∅;
                      process.argv := ["node"; "electron-builder-wrapper.js";
                                       "--x64"; "--mode=dist"; "--publish=never"] |}
                   "node" "electron-builder-wrapper.js"
                   ["--x64"] ["--publish=never"] "dist" _ _ _) _).
  - repeat constructor.
  - repeat constructor.
  - reflexivity.
  - reflexivity.
Defined.

Lemma parseArgs_single_token_mode_space :
  mode (parseArgs {| process.platform := "win32"; process.env := ∅;
                     process.argv := ["node"; "electron-builder-wrapper.js";
                                      "--x64"; "--mode  dir"; "--publish=never"] |})
    = "dir" /\
  builderArgs (parseArgs {| process.platform := "win32"; process.env := ∅;
                            process.argv := ["node"; "electron-builder-wrapper.js";
                                             "--x64"; "--mode  dir"; "--publish=never"] |})
    = ["--x64"; "--publish=never"].
Proof.
  refine (proj2 (parseArgs_single_token_mode
                   {| process.platform := "win32"; process.env := ∅;
                      process.argv := ["node"; "electron-builder-wrapper.js";
                                       "--x64"; "--mode  dir"; "--publish=never"] |}
                   "node" "electron-builder-wrapper.js"
                   ["--x64"] ["--publish=never"] "dir" _ _ _) "  " _ _ _ _).
  - repeat constructor.
  - repeat constructor.
  - reflexivity.
  - discriminate.
  - reflexivity.
  - reflexivity.
  - reflexivity.
Defined.

(** * Further properties of the build runner *)

(** [getPlatformFlag] knows three platforms and logs nothing. *)
Lemma getPlatformFlag_cases proc :
  (process.platform proc = "win32" /\ getPlatformFlag proc = ([], Return "--windows")) \/
  (process.platform proc = "darwin" /\ getPlatformFlag proc = ([], Return "--macos")) \/
  (process.platform proc = "linux" /\ getPlatformFlag proc = ([], Return "--linux")) \/
  (process.platform proc <> "win32" /\ process.platform proc <> "darwin" /\
   process.platform proc <> "linux" /\
   getPlatformFlag proc =
     ([], Throw (Error ("Could not determine platform flag for platform: "
                        +:+ process.platform proc)))).
Proof.
  unfold getPlatformFlag.
  destruct (String.eqb_spec (process.platform proc) "win32") as [->|Hw]; [by left|].
  destruct (String.eqb_spec (process.platform proc) "darwin") as [->|Hd]; [by right; left|].
  destruct (String.eqb_spec (process.platform proc) "linux") as [->|Hl];
    [by right; right; left|].
  by right; right; right.
Qed.

Lemma bind_ret_l {A B} (a : A) (k : A -> M B) : bind (ret a) k = k a.
Proof. unfold bind, ret. by destruct (k a). Qed.

Lemma bind_emit {B} (ev : event) (k : unit -> M B) :
  bind (emit ev) k = (ev :: trace (k tt), result (k tt)).
Proof. unfold bind, emit, trace, result. by destruct (k tt). Qed.

(** What [runBuilder] makes of the report of [spawnSync]. *)
Lemma runBuilder_report (r : SpawnResult) :
  (match error r with
   | Some e => throw e
   | None =>
       if truthy_str (signal r) then
         throw (Error ("Child process terminated due to signal "
                       +:+ default "" (signal r)))
       else if truthy_status (status r) then
         throw (Error ("Child process returned status code "
                       +:+ string_of_Z (default 0%Z (status r))))
       else ret tt
   end : M unit) =
  ([], match error r with
       | Some e => Throw e
       | None =>
           if truthy_str (signal r) then
             Throw (Error ("Child process terminated due to signal "
                           +:+ default "" (signal r)))
           else if truthy_status (status r) then
             Throw (Error ("Child process returned status code "
                           +:+ string_of_Z (default 0%Z (status r))))
           else Return tt
       end).
Proof.
  destruct r as [[err|] sig st]; cbn [error signal status]; [reflexivity|].
  destruct (truthy_str sig); [reflexivity|].
  destruct (truthy_status st); reflexivity.
Qed.

(** The three ways a call of [runBuilder] can go: the credentials check
    fails; the platform has no flag; or the packager is spawned once, with the
    platform flag, the target name, the flags chosen by the target and the
    configuration, and the passthrough arguments, and its report decides the
    outcome. *)
Lemma runBuilder_shape proc spawnSync wrapperConfig target :
  let env' := childEnvironment proc wrapperConfig target in
  let missing :=
    truthy_bool (doSign wrapperConfig)
    && isTargetOfType (name target) "nsis"
    && negb (truthy_str (js_or (env' !! "CSC_LINK") (env' !! "WIN_CSC_LINK"))) in
  (missing = true /\
   runBuilder proc spawnSync wrapperConfig target =
     ([], Throw (Error "Signing NSIS build requires CSC_LINK or WIN_CSC_LINK"))) \/
  (missing = false /\
   exists e, getPlatformFlag proc = ([], Throw e) /\
             runBuilder proc spawnSync wrapperConfig target = ([], Throw e)) \/
  (missing = false /\
   exists flag,
     getPlatformFlag proc = ([], Return flag) /\
     let middle :=
       (if String.eqb (platform target) "darwin" then
          ["--c.mac.type=" +:+ (if String.eqb (mode wrapperConfig) "dist"
                                then "distribution" else "development")]
          ++ (if isTargetOfType (name target) "mas-dev"
              then ["--c.mac.provisioningProfile=mas-dev.provisionprofile"] else [])
          ++ (if truthy_bool (doSign wrapperConfig)
              then ["--c.afterSign=scripts/afterSign.js"]
              else ["--c.mac.identity=null"])
        else [])
       ++ (if negb (truthy_bool (doPackage wrapperConfig))
           then ["--dir"; "--c.compression=store"] else []) in
     let args := flag :: name target :: middle ++ builderArgs wrapperConfig in
     let r := spawnSync "electron-builder" args env' in
     runBuilder proc spawnSync wrapperConfig target =
       ([ ConsoleLog ("running electron-builder with arguments: " +:+ join "," args);
          SpawnSync "electron-builder" args env' ],
        match error r with
        | Some e => Throw e
        | None =>
            if truthy_str (signal r) then
              Throw (Error ("Child process terminated due to signal "
                            +:+ default "" (signal r)))
            else if truthy_status (status r) then
              Throw (Error ("Child process returned status code "
                            +:+ string_of_Z (default 0%Z (status r))))
            else Return tt
        end)).
Proof.
  intros env' missing. unfold runBuilder. fold env'. fold missing.
  destruct missing eqn:Hmissing; [by left|right].
  destruct (getPlatformFlag_cases proc) as [[_ ->]|[[_ ->]|[[_ ->]|(_ & _ & _ & ->)]]];
    [right|right|right|left; split; [done|eexists; split; reflexivity]].
  all: split; [done|].
  all: eexists; split; [reflexivity|].
  all: change (when false ?m) with (ret tt);
         change (@pair (list event) (outcome string) [] (Return ?f)) with (ret f);
         rewrite !bind_ret_l, !bind_emit, runBuilder_report.
  all: unfold trace, result; cbn [fst snd].
  all: destruct (String.eqb (platform target) "darwin"),
                (isTargetOfType (name target) "mas-dev"),
                (truthy_bool (doSign wrapperConfig)),
                (truthy_bool (doPackage wrapperConfig)); reflexivity.
Qed.

(** Case analysis on the three ways of [runBuilder_shape]. *)
Ltac runBuilder_cases proc spawnSync wrapperConfig target :=
  let Hm := fresh "Hmissing" in
  let Hrun := fresh "Hrun" in
  let Hflag := fresh "Hflag" in
  let e := fresh "e" in
  let flag := fresh "flag" in
  destruct (runBuilder_shape proc spawnSync wrapperConfig target)
    as [[Hm Hrun]|[[Hm (e & Hflag & Hrun)]|[Hm (flag & Hflag & Hrun)]]];
  cbv zeta in Hm, Hrun.

(** X1. A call of [runBuilder] either throws before doing anything, or logs
    one line and spawns electron-builder exactly once, with the environment
    computed for the child. *)
Theorem runBuilder_spawns_at_most_once proc spawnSync wrapperConfig target :
  (exists e, runBuilder proc spawnSync wrapperConfig target = ([], Throw e)) \/
  (exists line args,
     trace (runBuilder proc spawnSync wrapperConfig target) =
       [ ConsoleLog line;
         SpawnSync "electron-builder" args (childEnvironment proc wrapperConfig target) ]).
Proof.
  runBuilder_cases proc spawnSync wrapperConfig target.
  - left. eauto.
  - left. eauto.
  - right. rewrite Hrun. eauto.
Qed.

(** X2. [runBuilder] returns normally exactly when it spawned the packager and
    the child reported no start error, no signal and a zero (or no) status. *)
Theorem runBuilder_returns_iff_clean_exit proc spawnSync wrapperConfig target :
  result (runBuilder proc spawnSync wrapperConfig target) = Return tt <->
  exists line args,
    trace (runBuilder proc spawnSync wrapperConfig target) =
      [ ConsoleLog line;
        SpawnSync "electron-builder" args (childEnvironment proc wrapperConfig target) ] /\
    clean_exit (spawnSync "electron-builder" args
                          (childEnvironment proc wrapperConfig target)) = true.
Proof.
  runBuilder_cases proc spawnSync wrapperConfig target; rewrite Hrun; unfold clean_exit;
    cbn [trace result fst snd].
  - split; [discriminate|]. intros (line & args & Heq & _). discriminate Heq.
  - split; [discriminate|]. intros (line & args & Heq & _). discriminate Heq.
  - split.
    + intros Hres. do 2 eexists. split; [reflexivity|].
      destruct (spawnSync _ _ _) as [[err|] sig st]; cbn in *; [discriminate|].
      destruct (truthy_str sig); cbn in *; [discriminate|].
      destruct (truthy_status st); cbn in *; [discriminate|reflexivity].
    + intros (line & args & Heq & Hclean). injection Heq as _ <-.
      destruct (spawnSync _ _ _) as [[err|] sig st]; cbn in *; [discriminate|].
      destruct (truthy_str sig); cbn in *; [discriminate|].
      destruct (truthy_status st); cbn in *; [discriminate|reflexivity].
Qed.

(** X3. The failure policy after the spawn, in order of precedence: a start
    error is rethrown as it is; else a signal gives the error naming the
    signal; else a non-zero status gives the error naming the status. *)
Theorem runBuilder_failure_policy proc spawnSync wrapperConfig target line command args env' :
  trace (runBuilder proc spawnSync wrapperConfig target)
    = [ConsoleLog line; SpawnSync command args env'] ->
  (forall err,
     error (spawnSync command args env') = Some err ->
     result (runBuilder proc spawnSync wrapperConfig target) = Throw err) /\
  (forall sig,
     error (spawnSync command args env') = None ->
     signal (spawnSync command args env') = Some sig -> sig <> "" ->
     result (runBuilder proc spawnSync wrapperConfig target)
       = Throw (Error ("Child process terminated due to signal " +:+ sig))) /\
  (forall code,
     error (spawnSync command args env') = None ->
     truthy_str (signal (spawnSync command args env')) = false ->
     status (spawnSync command args env') = Some code -> code <> 0%Z ->
     result (runBuilder proc spawnSync wrapperConfig target)
       = Throw (Error ("Child process returned status code " +:+ string_of_Z code))).
Proof.
  intros Htrace.
  runBuilder_cases proc spawnSync wrapperConfig target;
    [rewrite Hrun in Htrace; discriminate..|].
  set (args0 := flag :: _) in Hrun.
  rewrite Hrun in Htrace |- *. unfold trace, result in *. cbn [fst snd] in *.
  injection Htrace as _ <- <- <-.
  repeat apply conj.
  - intros err ->. reflexivity.
  - intros sig -> -> Hsig. by rewrite (truthy_str_nonempty _ Hsig).
  - intros code -> -> -> Hcode. cbn.
    apply Z.eqb_neq in Hcode. by rewrite Hcode.
Qed.

Lemma runBuilder_failure_policy_witness :
  result (runBuilder
            {| process.platform := "darwin"; process.env := ∅; process.argv := [] |}
            (fun _ _ _ => {| error := None; signal := Some "SIGKILL"; status := None |})
            {| builderArgs := []; doPackage := Some true; doSign := Some false;
               mode := "dev" |}
            {| platform := "darwin"; name := "dmg:x64 dmg:arm64" |})
  = Throw (Error "Child process terminated due to signal SIGKILL").
Proof.
  refine (proj1 (proj2 (runBuilder_failure_policy _ _ _ _ _ _ _ _ _)) "SIGKILL" _ _ _).
  - reflexivity.
  - reflexivity.
  - reflexivity.
  - discriminate.
Defined.

Lemma truthy_js_or (a b : option string) :
  truthy_str (js_or a b) = truthy_str a || truthy_str b.
Proof. unfold js_or. by destruct (truthy_str a) eqn:Ha; rewrite ?Ha. Qed.

Lemma runBuilder_spawn_inv proc spawnSync wrapperConfig target command args env' :
  SpawnSync command args env' ∈ trace (runBuilder proc spawnSync wrapperConfig target) ->
  command = "electron-builder" /\
  env' = childEnvironment proc wrapperConfig target /\
  exists line,
    trace (runBuilder proc spawnSync wrapperConfig target)
      = [ConsoleLog line; SpawnSync command args env'].
Proof.
  intros Hin.
  runBuilder_cases proc spawnSync wrapperConfig target;
    [rewrite Hrun in Hin; by apply elem_of_nil in Hin..|].
  set (args0 := flag :: _) in Hrun.
  rewrite Hrun in Hin |- *. unfold trace in *. cbn [fst] in *.
  rewrite !elem_of_cons, elem_of_nil in Hin.
  destruct Hin as [Hin|[Hin|[]]]; [discriminate|].
  injection Hin as -> -> ->. eauto.
Qed.

(** X4. The environment handed to the packager. A variable other than the
    four code-signing ones is always passed on as it is. For a target of type
    appx, and whenever [doSign] is not true, none of the four is passed on.
    When signing a target that is not of type appx, the environment is
    [process.env] unchanged. *)
Theorem runBuilder_spawn_environment proc spawnSync wrapperConfig target command args env' :
  SpawnSync command args env' ∈ trace (runBuilder proc spawnSync wrapperConfig target) ->
  (forall k, k ∉ CSC_keys -> env' !! k = process.env proc !! k) /\
  (isTargetOfType (name target) "appx" = true \/ doSign wrapperConfig <> Some true ->
   forall k, k ∈ CSC_keys -> env' !! k = None) /\
  (isTargetOfType (name target) "appx" = false -> doSign wrapperConfig = Some true ->
   env' = process.env proc).
Proof.
  intros Hin. apply runBuilder_spawn_inv in Hin as (_ & -> & _).
  unfold childEnvironment, shouldStripCSC. repeat apply conj.
  - intros k Hk. destruct (_ || _); [by apply lookup_stripCSC_other | done].
  - intros Hstrip k Hk.
    assert (isTargetOfType (name target) "appx"
            || negb (truthy_bool (doSign wrapperConfig)) = true) as ->.
    { destruct Hstrip as [-> | Hsign]; [done|].
      destruct (doSign wrapperConfig) as [[|]|]; [congruence|..]; apply orb_true_r. }
    by apply lookup_stripCSC_key.
  - intros -> ->. reflexivity.
Qed.

Lemma runBuilder_spawn_environment_witness :
  (<["CSC_LINK" := "cert.p12"]> {["PATH" := "/usr/bin"]} : gmap string string)
  = process.env {| process.platform := "darwin";
                   process.env := <["CSC_LINK" := "cert.p12"]> {["PATH" := "/usr/bin"]};
                   process.argv := [] |}.
Proof.
  refine (proj2 (proj2 (runBuilder_spawn_environment
            {| process.platform := "darwin";
               process.env := <["CSC_LINK" := "cert.p12"]> {["PATH" := "/usr/bin"]};
               process.argv := [] |}
            (fun _ _ _ => {| error := None; signal := None; status := Some 0%Z |})
            {| builderArgs := []; doPackage := Some true; doSign := Some true;
               mode := "dist" |}
            {| platform := "darwin"; name := "mas:x64 mas:arm64" |}
            "electron-builder"
            ["--macos"; "mas:x64 mas:arm64"; "--c.mac.type=distribution";
             "--c.afterSign=scripts/afterSign.js"]
            _ _)) _ _).
  - apply list_elem_of_further, list_elem_of_here.
  - reflexivity.
  - reflexivity.
Defined.

(** X5. The credentials error is thrown exactly when [doSign] is true, the
    target is of type nsis, and both CSC_LINK and WIN_CSC_LINK are missing or
    empty in [process.env]; an empty value counts as missing. *)
Theorem runBuilder_credentials_error_iff proc spawnSync wrapperConfig target :
  runBuilder proc spawnSync wrapperConfig target
    = ([], Throw (Error "Signing NSIS build requires CSC_LINK or WIN_CSC_LINK")) <->
  doSign wrapperConfig = Some true /\
  isTargetOfType (name target) "nsis" = true /\
  truthy_str (process.env proc !! "CSC_LINK") = false /\
  truthy_str (process.env proc !! "WIN_CSC_LINK") = false.
Proof.
  split.
  - intros Hthrow.
    runBuilder_cases proc spawnSync wrapperConfig target.
    + apply andb_true_iff in Hmissing as [Hmissing Hcred].
      apply andb_true_iff in Hmissing as [Hsign Hnsis].
      apply truthy_bool_true in Hsign.
      rewrite (childEnvironment_signed_nsis _ _ _ Hsign Hnsis), truthy_js_or in Hcred.
      apply negb_true_iff, orb_false_iff in Hcred. tauto.
    + rewrite Hrun in Hthrow. injection Hthrow as ->.
      destruct (getPlatformFlag_cases proc)
        as [[_ Hf]|[[_ Hf]|[[_ Hf]|(_ & _ & _ & Hf)]]];
        rewrite Hf in Hflag; [discriminate..|].
      injection Hflag as Hbit _. discriminate Hbit.
    + rewrite Hrun in Hthrow. discriminate.
  - intros (Hsign & Hnsis & Hcsc & Hwin). unfold runBuilder.
    rewrite (childEnvironment_signed_nsis _ _ _ Hsign Hnsis), truthy_js_or.
    rewrite Hsign, Hnsis, Hcsc, Hwin. reflexivity.
Qed.

Lemma elem_of_flags (x : string) (l : list string) :
  x ∈ l <-> existsb (String.eqb x) l = true.
Proof.
  induction l as [|y l IH]; simpl.
  - rewrite elem_of_nil. split; [tauto | discriminate].
  - rewrite elem_of_cons, orb_true_iff, String.eqb_eq, IH. tauto.
Qed.

(** X6. The command line of the spawned packager: the platform flag, the
    target name, the flags chosen by the run, then the passthrough arguments,
    verbatim and last. Among the chosen flags: the afterSign hook exactly for
    a darwin target with [doSign] true, the null identity exactly for a darwin
    target otherwise; the provisioning profile exactly for a darwin target of
    type mas-dev; the distribution type exactly for a darwin target in mode
    dist, the development type for a darwin target in any other mode; the
    directory output and the store compression exactly when [doPackage] is not
    true. *)
Theorem runBuilder_command_line proc spawnSync wrapperConfig target command args env' :
  SpawnSync command args env' ∈ trace (runBuilder proc spawnSync wrapperConfig target) ->
  command = "electron-builder" /\
  exists flag middle,
    getPlatformFlag proc = ([], Return flag) /\
    args = flag :: name target :: middle ++ builderArgs wrapperConfig /\
    ("--c.afterSign=scripts/afterSign.js" ∈ middle <->
       platform target = "darwin" /\ doSign wrapperConfig = Some true) /\
    ("--c.mac.identity=null" ∈ middle <->
       platform target = "darwin" /\ doSign wrapperConfig <> Some true) /\
    ("--c.mac.provisioningProfile=mas-dev.provisionprofile" ∈ middle <->
       platform target = "darwin" /\ isTargetOfType (name target) "mas-dev" = true) /\
    ("--c.mac.type=distribution" ∈ middle <->
       platform target = "darwin" /\ mode wrapperConfig = "dist") /\
    ("--c.mac.type=development" ∈ middle <->
       platform target = "darwin" /\ mode wrapperConfig <> "dist") /\
    ("--dir" ∈ middle <-> doPackage wrapperConfig <> Some true) /\
    ("--c.compression=store" ∈ middle <-> doPackage wrapperConfig <> Some true).
Proof.
  intros Hin. split; [by apply runBuilder_spawn_inv in Hin as (-> & _)|].
  runBuilder_cases proc spawnSync wrapperConfig target;
    [rewrite Hrun in Hin; by apply elem_of_nil in Hin..|].
  exists flag. eexists. split; [exact Hflag|].
  split.
  { rewrite Hrun in Hin. unfold trace in Hin. cbn [fst] in Hin.
    rewrite !elem_of_cons, elem_of_nil in Hin.
    destruct Hin as [Hin|[Hin|[]]]; [discriminate|].
    injection Hin as _ -> _. reflexivity. }
  clear Hin Hrun Hmissing Hflag.
  rewrite !elem_of_flags.
  rewrite <- !(String.eqb_eq (platform target)), <- !(String.eqb_eq (mode wrapperConfig)),
    <- !truthy_bool_true.
  destruct (String.eqb (platform target) "darwin"),
           (String.eqb (mode wrapperConfig) "dist"),
           (isTargetOfType (name target) "mas-dev"),
           (truthy_bool (doSign wrapperConfig)),
           (truthy_bool (doPackage wrapperConfig));
    vm_compute; intuition congruence.
Qed.

Lemma runBuilder_command_line_witness :
  exists flag middle,
    getPlatformFlag {| process.platform := "darwin"; process.env := ∅;
                       process.argv := [] |} = ([], Return flag) /\
    ["--macos"; "dmg:x64 dmg:arm64"; "--c.mac.type=development";
     "--c.mac.identity=null"; "--dir"; "--c.compression=store"; "--publish=never"]
    = flag :: "dmg:x64 dmg:arm64" :: middle ++ ["--publish=never"].
Proof.
  destruct (runBuilder_command_line
              {| process.platform := "darwin"; process.env := ∅; process.argv := [] |}
              (fun _ _ _ => {| error := None; signal := None; status := Some 0%Z |})
              {| builderArgs := ["--publish=never"]; doPackage := Some false;
                 doSign := Some false; mode := "dir" |}
              {| platform := "darwin"; name := "dmg:x64 dmg:arm64" |}
              "electron-builder"
              ["--macos"; "dmg:x64 dmg:arm64"; "--c.mac.type=development";
               "--c.mac.identity=null"; "--dir"; "--c.compression=store";
               "--publish=never"]
              ∅
              (list_elem_of_further _ _ _ (list_elem_of_here _ _)))
    as (_ & flag & middle & Hflag & Hargs & _).
  exists flag, middle. split; [exact Hflag | exact Hargs].
Defined.

(** * Further properties of the target planner *)

(** What the planner returns, when it returns. *)
Lemma calculateTargets_inv proc fs wrapperConfig targets :
  result (calculateTargets proc fs wrapperConfig) = Return targets ->
  (process.platform proc = "win32" /\
   targets = [ {| platform := "win32"; name := "appx:x64 appx:ia32 appx:arm64" |};
               {| platform := "win32"; name := "nsis:ia32" |} ]) \/
  (process.platform proc = "darwin" /\
   targets =
     (if existsSync fs "mas-dev.provisionprofile"
      then [ {| platform := "darwin"; name := "mas-dev:x64 mas-dev:arm64" |} ] else [])
     ++ (if truthy_bool (doSign wrapperConfig)
         then [ {| platform := "darwin"; name := "mas:x64 mas:arm64" |} ] else [])
     ++ [ {| platform := "darwin"; name := "dmg:x64 dmg:arm64" |} ]).
Proof.
  unfold calculateTargets.
  destruct (String.eqb_spec (process.platform proc) "win32") as [Hw|Hw].
  - intros [= <-]. left. done.
  - destruct (String.eqb_spec (process.platform proc) "darwin") as [Hd|Hd];
      [|discriminate].
    intros Hres. right. split; [done|].
    destruct (existsSync fs "mas-dev.provisionprofile"),
             (truthy_bool (doSign wrapperConfig));
      injection Hres as <-; reflexivity.
Qed.

(** X7. Every pass the planner returns carries the host platform, no two
    passes have the same name, and each pass is of exactly one of the five
    target types: its name is of that type and of no other. *)
Theorem calculateTargets_passes_well_formed proc fs wrapperConfig targets :
  result (calculateTargets proc fs wrapperConfig) = Return targets ->
  Forall (fun target => platform target = process.platform proc) targets /\
  NoDup (name <$> targets) /\
  Forall (fun target =>
            exists ty, ty ∈ target_types /\
              forall ty', ty' ∈ target_types ->
                (isTargetOfType (name target) ty' = true <-> ty' = ty)) targets.
Proof.
  assert (Htype : forall n ty,
            existsb (String.eqb ty) target_types
            && forallb (fun ty' => Bool.eqb (isTargetOfType n ty') (String.eqb ty' ty))
                       target_types = true ->
            exists ty0, ty0 ∈ target_types /\
              forall ty', ty' ∈ target_types ->
                (isTargetOfType n ty' = true <-> ty' = ty0)).
  { intros n ty Hcheck. apply andb_true_iff in Hcheck as [Hty Hall].
    exists ty. split; [by apply elem_of_flags|].
    intros ty' Hty'. rewrite forallb_forall in Hall.
    apply list_elem_of_In, Hall, Bool.eqb_prop in Hty'.
    rewrite Hty'. apply String.eqb_eq. }
  intros Hres.
  apply calculateTargets_inv in Hres as [[-> ->]|[-> ->]];
    [|destruct (existsSync fs "mas-dev.provisionprofile"),
               (truthy_bool (doSign wrapperConfig)); cbn [app]].
  all: split; [repeat constructor|].
  all: split; [apply (bool_decide_eq_true_1 _); vm_compute; reflexivity|].
  all: repeat constructor.
  all: first [ apply (Htype _ "appx"); vm_compute; reflexivity
             | apply (Htype _ "nsis"); vm_compute; reflexivity
             | apply (Htype _ "mas-dev"); vm_compute; reflexivity
             | apply (Htype _ "mas"); vm_compute; reflexivity
             | apply (Htype _ "dmg"); vm_compute; reflexivity ].
Qed.

Lemma calculateTargets_passes_well_formed_witness :
  NoDup (name <$> [ {| platform := "darwin"; name := "mas:x64 mas:arm64" |};
                    {| platform := "darwin"; name := "dmg:x64 dmg:arm64" |} ]).
Proof.
  refine (proj1 (proj2 (calculateTargets_passes_well_formed
            {| process.platform := "darwin"; process.env := ∅; process.argv := [] |}
            ∅
            {| builderArgs := []; doPackage := Some true; doSign := Some true;
               mode := "dist" |}
            _ _))).
  reflexivity.
Defined.

(** X8. Whenever the planner returns, the runner has a flag for the platform,
    so no planned pass can fail on the platform flag; linux has a flag but no
    plan. *)
Theorem calculateTargets_platform_has_flag proc fs wrapperConfig :
  (forall targets,
     result (calculateTargets proc fs wrapperConfig) = Return targets ->
     getPlatformFlag proc = ([], Return "--windows") \/
     getPlatformFlag proc = ([], Return "--macos")) /\
  (process.platform proc = "linux" ->
   getPlatformFlag proc = ([], Return "--linux") /\
   exists e, calculateTargets proc fs wrapperConfig = ([], Throw e)).
Proof.
  split.
  - intros targets Hres.
    apply calculateTargets_inv in Hres as [[Hplat _]|[Hplat _]];
      unfold getPlatformFlag; rewrite Hplat; auto.
  - intros Hplat. unfold getPlatformFlag, calculateTargets. rewrite Hplat.
    split; [reflexivity | eexists; reflexivity].
Qed.

Lemma calculateTargets_platform_has_flag_witness :
  getPlatformFlag {| process.platform := "linux"; process.env := ∅; process.argv := [] |}
    = ([], Return "--linux") /\
  exists e,
    calculateTargets
      {| process.platform := "linux"; process.env := ∅; process.argv := [] |} ∅
      (dir_config []) = ([], Throw e).
Proof.
  exact (proj2 (calculateTargets_platform_has_flag
                  {| process.platform := "linux"; process.env := ∅; process.argv := [] |}
                  ∅ (dir_config [])) eq_refl).
Defined.

(** X9. On darwin each of the three passes is either planned or reported as
    skipped on the console, and the planner does nothing else: the log lines
    and the planned passes add up to three. On win32 nothing is logged. *)
Theorem calculateTargets_logs_skipped_passes proc fs wrapperConfig targets :
  result (calculateTargets proc fs wrapperConfig) = Return targets ->
  Forall (fun ev => exists line, ev = ConsoleLog line)
         (trace (calculateTargets proc fs wrapperConfig)) /\
  (process.platform proc = "darwin" ->
   (length (trace (calculateTargets proc fs wrapperConfig)) + length targets = 3)%nat) /\
  (process.platform proc = "win32" ->
   trace (calculateTargets proc fs wrapperConfig) = []).
Proof.
  intros Hres. pose proof (calculateTargets_inv _ _ _ _ Hres) as [[Hplat ->]|[Hplat ->]];
    unfold calculateTargets in *; rewrite Hplat in *; clear Hres.
  - repeat split; [constructor | discriminate].
  - repeat split; [| |discriminate];
      destruct (existsSync fs "mas-dev.provisionprofile"),
               (truthy_bool (doSign wrapperConfig)); cbn; eauto.
Qed.

Lemma calculateTargets_logs_skipped_passes_witness :
  (length (trace (calculateTargets
                    {| process.platform := "darwin"; process.env := ∅;
                       process.argv := [] |} ∅ (dir_config [])))
   + length [ {| platform := "darwin"; name := "dmg:x64 dmg:arm64" |} ] = 3)%nat.
Proof.
  refine (proj1 (proj2 (calculateTargets_logs_skipped_passes
            {| process.platform := "darwin"; process.env := ∅; process.argv := [] |}
            ∅ (dir_config []) _ _)) _); reflexivity.
Defined.

(** * Properties of [main] *)

Lemma trace_bind {A B} (m : M A) (k : A -> M B) :
  trace (bind m k) =
  trace m ++ match result m with Return a => trace (k a) | Throw _ => [] end.
Proof.
  destruct m as [tr [a|e]]; unfold bind, trace, result; cbn [fst snd].
  - by destruct (k a).
  - by rewrite app_nil_r.
Qed.

Lemma result_bind {A B} (m : M A) (k : A -> M B) :
  result (bind m k) =
  match result m with Return a => result (k a) | Throw e => Throw e end.
Proof.
  destruct m as [tr [a|e]]; unfold bind, result; cbn [snd]; [|reflexivity].
  by destruct (k a).
Qed.

Lemma trace_bind_return {A B} (m : M A) (k : A -> M B) (a : A) :
  result m = Return a -> trace (bind m k) = trace m ++ trace (k a).
Proof. intros H. by rewrite trace_bind, H. Qed.

Lemma result_bind_return {A B} (m : M A) (k : A -> M B) (a : A) :
  result m = Return a -> result (bind m k) = result (k a).
Proof. intros H. by rewrite result_bind, H. Qed.

Lemma spawned_names_app (tr1 tr2 : list event) :
  spawned_names (tr1 ++ tr2) = spawned_names tr1 ++ spawned_names tr2.
Proof. apply omap_app. Qed.

(** The planner spawns nothing. *)
Lemma calculateTargets_spawned_names proc fs wrapperConfig :
  spawned_names (trace (calculateTargets proc fs wrapperConfig)) = [].
Proof.
  unfold calculateTargets.
  destruct (String.eqb (process.platform proc) "win32"); [reflexivity|].
  destruct (String.eqb (process.platform proc) "darwin"); [|reflexivity].
  destruct (existsSync fs "mas-dev.provisionprofile"),
           (truthy_bool (doSign wrapperConfig)); reflexivity.
Qed.

(** One call of the runner spawns the packager for its own target, or throws
    without spawning. *)
Lemma runBuilder_spawned_names proc spawnSync wrapperConfig target :
  (spawned_names (trace (runBuilder proc spawnSync wrapperConfig target)) = [] /\
   exists e, result (runBuilder proc spawnSync wrapperConfig target) = Throw e) \/
  spawned_names (trace (runBuilder proc spawnSync wrapperConfig target)) = [name target].
Proof.
  runBuilder_cases proc spawnSync wrapperConfig target; rewrite Hrun.
  - left. split; [reflexivity | eexists; reflexivity].
  - left. split; [reflexivity | eexists; reflexivity].
  - right. reflexivity.
Qed.

Lemma runBuilders_spawned_names proc spawnSync wrapperConfig targets :
  spawned_names (trace (runBuilders proc spawnSync wrapperConfig targets))
    `prefix_of` (name <$> targets) /\
  (result (runBuilders proc spawnSync wrapperConfig targets) = Return tt ->
   spawned_names (trace (runBuilders proc spawnSync wrapperConfig targets))
     = name <$> targets).
Proof.
  induction targets as [|target rest [IHprefix IHall]]; cbn [runBuilders fmap list_fmap].
  - split; [apply prefix_nil | reflexivity].
  - rewrite trace_bind, result_bind, spawned_names_app.
    destruct (runBuilder_spawned_names proc spawnSync wrapperConfig target)
      as [[Hnone [e He]]|Hone].
    + rewrite Hnone, He. split; [apply prefix_nil | discriminate].
    + rewrite Hone.
      destruct (result (runBuilder proc spawnSync wrapperConfig target)) as [[]|e].
      * split; [by apply prefix_cons | intros Hres; by rewrite IHall].
      * split; [apply prefix_cons, prefix_nil | discriminate].
Qed.

Lemma runBuilders_all_return proc spawnSync wrapperConfig targets :
  result (runBuilders proc spawnSync wrapperConfig targets) = Return tt <->
  Forall (fun target => result (runBuilder proc spawnSync wrapperConfig target) = Return tt)
         targets.
Proof.
  induction targets as [|target rest IH]; cbn [runBuilders].
  - split; [constructor | reflexivity].
  - rewrite result_bind, Forall_cons.
    destruct (result (runBuilder proc spawnSync wrapperConfig target)) as [[]|e].
    + rewrite IH. tauto.
    + split; [discriminate | intros [[=] _]].
Qed.

Lemma runBuilders_first_failure proc spawnSync wrapperConfig pre target post e :
  Forall (fun t => result (runBuilder proc spawnSync wrapperConfig t) = Return tt) pre ->
  result (runBuilder proc spawnSync wrapperConfig target) = Throw e ->
  result (runBuilders proc spawnSync wrapperConfig (pre ++ target :: post)) = Throw e /\
  trace (runBuilders proc spawnSync wrapperConfig (pre ++ target :: post)) =
    concat ((fun t => trace (runBuilder proc spawnSync wrapperConfig t)) <$> pre)
    ++ trace (runBuilder proc spawnSync wrapperConfig target).
Proof.
  intros Hpre Hfail.
  induction Hpre as [|t pre Ht _ [IHres IHtrace]];
    cbn [runBuilders app fmap list_fmap concat]; rewrite result_bind, trace_bind.
  - rewrite Hfail. by rewrite app_nil_r.
  - rewrite Ht, IHres, IHtrace. by rewrite app_assoc.
Qed.

(** X10. [main] spawns the packager for the planned passes in the order of
    the plan, one spawn per pass and none besides: the target names spawned
    are a prefix of the planned names, and all of them when [main] returns. *)
Theorem main_runs_passes_in_order proc fs spawnSync targets :
  result (calculateTargets proc fs (parseArgs proc)) = Return targets ->
  spawned_names (trace (main proc fs spawnSync)) `prefix_of` (name <$> targets) /\
  (result (main proc fs spawnSync) = Return tt ->
   spawned_names (trace (main proc fs spawnSync)) = name <$> targets).
Proof.
  intros Hplan. unfold main.
  rewrite trace_bind, result_bind, spawned_names_app, Hplan,
    calculateTargets_spawned_names.
  apply runBuilders_spawned_names.
Qed.

Lemma main_runs_passes_in_order_witness :
  spawned_names
    (trace (main {| process.platform := "win32"; process.env := ∅;
                    process.argv := ["node"; "electron-builder-wrapper.js"] |}
                 ∅
                 (fun _ _ _ => {| error := None; signal := None; status := Some 0%Z |})))
  = name <$> [ {| platform := "win32"; name := "appx:x64 appx:ia32 appx:arm64" |};
               {| platform := "win32"; name := "nsis:ia32" |} ].
Proof.
  refine (proj2 (main_runs_passes_in_order _ _ _ _ _) _); reflexivity.
Defined.

(** X11. [main] returns normally exactly when the planner returns a plan and
    the runner returns for every pass of it. *)
Theorem main_returns_iff_all_passes_return proc fs spawnSync :
  result (main proc fs spawnSync) = Return tt <->
  exists targets,
    result (calculateTargets proc fs (parseArgs proc)) = Return targets /\
    Forall (fun target =>
              result (runBuilder proc spawnSync (parseArgs proc) target) = Return tt)
           targets.
Proof.
  unfold main. rewrite result_bind.
  destruct (result (calculateTargets proc fs (parseArgs proc))) as [targets|e].
  - rewrite runBuilders_all_return. split.
    + intros Hall. exists targets. done.
    + intros (targets' & [= <-] & Hall). exact Hall.
  - split; [discriminate | intros (targets & [=] & _)].
Qed.

(** X12. [main] fails fast: when the passes before some pass return and that
    pass throws, [main] throws the same exception, and its trace ends with the
    trace of the failing pass; no later pass is logged or spawned. *)
Theorem main_stops_at_first_failure proc fs spawnSync pre target post e :
  result (calculateTargets proc fs (parseArgs proc)) = Return (pre ++ target :: post) ->
  Forall (fun t => result (runBuilder proc spawnSync (parseArgs proc) t) = Return tt) pre ->
  result (runBuilder proc spawnSync (parseArgs proc) target) = Throw e ->
  result (main proc fs spawnSync) = Throw e /\
  trace (main proc fs spawnSync) =
    trace (calculateTargets proc fs (parseArgs proc))
    ++ concat ((fun t => trace (runBuilder proc spawnSync (parseArgs proc) t)) <$> pre)
    ++ trace (runBuilder proc spawnSync (parseArgs proc) target).
Proof.
  intros Hplan Hpre Hfail. unfold main.
  rewrite trace_bind, result_bind, Hplan.
  destruct (runBuilders_first_failure proc spawnSync (parseArgs proc) pre target post e
              Hpre Hfail) as [-> ->].
  done.
Qed.

Lemma main_stops_at_first_failure_witness :
  result (main {| process.platform := "win32"; process.env := ∅;
                  process.argv := ["node"; "electron-builder-wrapper.js"] |}
               ∅
               (fun _ _ _ => {| error := None; signal := None; status := Some 1%Z |}))
  = Throw (Error "Child process returned status code 1").
Proof.
  refine (proj1 (main_stops_at_first_failure
            {| process.platform := "win32"; process.env := ∅;
               process.argv := ["node"; "electron-builder-wrapper.js"] |}
            ∅
            (fun _ _ _ => {| error := None; signal := None; status := Some 1%Z |})
            []
            {| platform := "win32"; name := "appx:x64 appx:ia32 appx:arm64" |}
            [ {| platform := "win32"; name := "nsis:ia32" |} ]
            _ _ _ _)).
  - reflexivity.
  - constructor.
  - reflexivity.
Defined.

(** X13. On a platform other than win32 and darwin, linux included, [main]
    throws the planner's error whatever the arguments and the environment,
    and does nothing before: no log line, no spawn. *)
Theorem main_unsupported_platform proc fs spawnSync :
  process.platform proc <> "win32" ->
  process.platform proc <> "darwin" ->
  main proc fs spawnSync =
    ([], Throw (Error ("Could not determine targets for platform: "
                       +:+ process.platform proc))).
Proof.
  intros Hwin Hmac. unfold main, calculateTargets.
  apply String.eqb_neq in Hwin, Hmac. rewrite Hwin, Hmac. reflexivity.
Qed.

Lemma main_unsupported_platform_witness :
  main {| process.platform := "linux"; process.env := ∅;
          process.argv := ["node"; "electron-builder-wrapper.js"; "--mode=dir"] |}
       ∅
       (fun _ _ _ => {| error := None; signal := None; status := Some 0%Z |})
  = ([], Throw (Error "Could not determine targets for platform: linux")).
Proof.
  apply (main_unsupported_platform
           {| process.platform := "linux"; process.env := ∅;
              process.argv := ["node"; "electron-builder-wrapper.js"; "--mode=dir"] |});
    discriminate.
Defined.

Lemma runBuilder_missing_credentials proc spawnSync wrapperConfig target :
  doSign wrapperConfig = Some true ->
  isTargetOfType (name target) "nsis" = true ->
  truthy_str (process.env proc !! "CSC_LINK") = false ->
  truthy_str (process.env proc !! "WIN_CSC_LINK") = false ->
  runBuilder proc spawnSync wrapperConfig target
    = ([], Throw (Error "Signing NSIS build requires CSC_LINK or WIN_CSC_LINK")).
Proof.
  intros Hsign Hnsis Hcsc Hwin. unfold runBuilder.
  rewrite (childEnvironment_signed_nsis _ _ _ Hsign Hnsis), truthy_js_or.
  rewrite Hsign, Hnsis, Hcsc, Hwin. reflexivity.
Qed.

Lemma runBuilder_returns_when_clean proc spawnSync wrapperConfig target flag :
  isTargetOfType (name target) "nsis" = false ->
  getPlatformFlag proc = ([], Return flag) ->
  (forall args env', clean_exit (spawnSync "electron-builder" args env') = true) ->
  result (runBuilder proc spawnSync wrapperConfig target) = Return tt /\
  spawned_names (trace (runBuilder proc spawnSync wrapperConfig target)) = [name target].
Proof.
  intros Hnsis Hflag Hclean.
  runBuilder_cases proc spawnSync wrapperConfig target.
  - rewrite Hnsis, andb_false_r in Hmissing. discriminate.
  - rewrite Hflag in Hflag0. discriminate.
  - rewrite Hrun. split; [|reflexivity].
    unfold result. cbn [snd].
    match goal with
    | |- context [spawnSync ?c ?a ?e] =>
        specialize (Hclean a e); unfold clean_exit in Hclean;
        destruct (spawnSync c a e) as [[err|] sig st]
    end; cbn [error signal status] in *; [discriminate|].
    apply andb_true_iff in Hclean as [Hsig Hst].
    apply negb_true_iff in Hsig, Hst. by rewrite Hsig, Hst.
Qed.

(** X14. On win32 with signing enabled and no certificate in the environment
    (CSC_LINK and WIN_CSC_LINK both missing or empty), [main] first builds the
    appx pass, and only then throws the credentials error for the nsis pass:
    the missing certificate is not detected before the first spawn. *)
Theorem main_win32_appx_built_before_credentials_error proc fs spawnSync :
  process.platform proc = "win32" ->
  doSign (parseArgs proc) = Some true ->
  truthy_str (process.env proc !! "CSC_LINK") = false ->
  truthy_str (process.env proc !! "WIN_CSC_LINK") = false ->
  (forall args env', clean_exit (spawnSync "electron-builder" args env') = true) ->
  result (main proc fs spawnSync)
    = Throw (Error "Signing NSIS build requires CSC_LINK or WIN_CSC_LINK") /\
  spawned_names (trace (main proc fs spawnSync)) = ["appx:x64 appx:ia32 appx:arm64"].
Proof.
  intros Hplat Hsign Hcsc Hwin Hclean.
  assert (Hplan : calculateTargets proc fs (parseArgs proc) =
            ([], Return [ {| platform := "win32"; name := "appx:x64 appx:ia32 appx:arm64" |};
                          {| platform := "win32"; name := "nsis:ia32" |} ])).
  { unfold calculateTargets. rewrite Hplat. reflexivity. }
  assert (Hflag : getPlatformFlag proc = ([], Return "--windows")).
  { unfold getPlatformFlag. rewrite Hplat. reflexivity. }
  destruct (runBuilder_returns_when_clean proc spawnSync (parseArgs proc)
              {| platform := "win32"; name := "appx:x64 appx:ia32 appx:arm64" |}
              "--windows" eq_refl Hflag Hclean) as [Happx Hnames].
  pose proof (runBuilder_missing_credentials proc spawnSync (parseArgs proc)
                {| platform := "win32"; name := "nsis:ia32" |}
                Hsign eq_refl Hcsc Hwin) as Hnsis.
  assert (Hres : result (calculateTargets proc fs (parseArgs proc)) =
            Return [ {| platform := "win32"; name := "appx:x64 appx:ia32 appx:arm64" |};
                     {| platform := "win32"; name := "nsis:ia32" |} ])
    by (by rewrite Hplan).
  unfold main.
  rewrite (result_bind_return _ _ _ Hres), (trace_bind_return _ _ _ Hres).
  rewrite spawned_names_app, calculateTargets_spawned_names.
  cbn [runBuilders].
  rewrite (result_bind_return _ _ _ Happx), (trace_bind_return _ _ _ Happx).
  rewrite spawned_names_app, Hnames, Hnsis. split; reflexivity.
Qed.

Lemma main_win32_appx_built_before_credentials_error_witness :
  spawned_names
    (trace (main {| process.platform := "win32"; process.env := {["CSC_LINK" := ""]};
                    process.argv := ["node"; "electron-builder-wrapper.js";
                                     "--mode=dist"] |}
                 ∅
                 (fun _ _ _ => {| error := None; signal := None; status := Some 0%Z |})))
  = ["appx:x64 appx:ia32 appx:arm64"].
Proof.
  refine (proj2 (main_win32_appx_built_before_credentials_error
            {| process.platform := "win32"; process.env := {["CSC_LINK" := ""]};
               process.argv := ["node"; "electron-builder-wrapper.js"; "--mode=dist"] |}
            ∅
            (fun _ _ _ => {| error := None; signal := None; status := Some 0%Z |})
            _ _ _ _ _)); reflexivity.
Defined.

(** * Further properties of argument parsing *)

(** X15. A mode other than dev, dir and dist leaves both flags undefined, and
    the planner and the runner then behave exactly as in mode dir with the
    same passthrough arguments. *)
Theorem parseArgs_unrecognised_mode_runs_as_dir proc fs spawnSync target :
  mode (parseArgs proc) ∉ ["dev"; "dir"; "dist"] ->
  doPackage (parseArgs proc) = None /\
  doSign (parseArgs proc) = None /\
  calculateTargets proc fs (parseArgs proc)
    = calculateTargets proc fs (dir_config (builderArgs (parseArgs proc))) /\
  runBuilder proc spawnSync (parseArgs proc) target
    = runBuilder proc spawnSync (dir_config (builderArgs (parseArgs proc))) target.
Proof.
  intros Hmode.
  assert (Hflags : doPackage (parseArgs proc) = None /\ doSign (parseArgs proc) = None /\
                   String.eqb (mode (parseArgs proc)) "dist" = false).
  { revert Hmode. unfold parseArgs.
    destruct (fold_left parseArgs_step (drop 2 (process.argv proc)) ("dev", []))
      as [m args].
    rewrite !not_elem_of_cons.
    destruct (String.eqb_spec m "dev"), (String.eqb_spec m "dir"),
             (String.eqb_spec m "dist"); cbn; intros (Hdev & Hdir & Hdist & _);
      repeat split; try congruence; by apply String.eqb_neq. }
  destruct Hflags as (Hpackage & Hsign & Hdist).
  split; [exact Hpackage|]. split; [exact Hsign|]. split.
  - unfold calculateTargets. rewrite Hsign. reflexivity.
  - unfold runBuilder, childEnvironment, shouldStripCSC.
    rewrite Hpackage, Hsign, Hdist. reflexivity.
Qed.

Lemma parseArgs_unrecognised_mode_runs_as_dir_witness :
  doPackage (parseArgs {| process.platform := "darwin"; process.env := ∅;
                          process.argv := ["node"; "electron-builder-wrapper.js";
                                           "--mode=production"] |}) = None.
Proof.
  refine (proj1 (parseArgs_unrecognised_mode_runs_as_dir
            {| process.platform := "darwin"; process.env := ∅;
               process.argv := ["node"; "electron-builder-wrapper.js";
                                "--mode=production"] |}
            ∅
            (fun _ _ _ => {| error := None; signal := None; status := Some 0%Z |})
            {| platform := "darwin"; name := "dmg:x64 dmg:arm64" |} _)).
  rewrite !not_elem_of_cons. repeat split; try discriminate. apply not_elem_of_nil.
Defined.

(** The loop on a token that splits in three, from any state. *)
Lemma parseArgs_loop_mode_token (pre rest : list string) (token piece cap value : string)
    (mode0 : string) (acc : list string) :
  Forall (fun arg => hasModeFlag arg = false) pre ->
  splitMode token = [piece; cap; value] ->
  fold_left parseArgs_step (pre ++ token :: rest) (mode0, acc)
    = fold_left parseArgs_step rest (value, acc ++ pre).
Proof.
  intros Hpre Hsplit.
  rewrite fold_left_app, (parseArgs_loop_no_flag _ _ _ Hpre). cbn [fold_left].
  by rewrite (parseArgs_step_mode _ _ _ _ _ _ Hsplit).
Qed.

(** X16. When the mode is given twice, the later token wins; both mode tokens
    are left out of builderArgs and the other tokens keep their order. *)
Theorem parseArgs_last_mode_wins proc node script pre mid post value1 value2 :
  Forall (fun arg => hasModeFlag arg = false) pre ->
  Forall (fun arg => hasModeFlag arg = false) mid ->
  Forall (fun arg => hasModeFlag arg = false) post ->
  hasModeFlag value1 = false ->
  hasModeFlag value2 = false ->
  process.argv proc =
    node :: script :: pre ++ ("--mode=" +:+ value1) :: mid
                          ++ ("--mode=" +:+ value2) :: post ->
  mode (parseArgs proc) = value2 /\
  builderArgs (parseArgs proc) = pre ++ mid ++ post.
Proof.
  intros Hpre Hmid Hpost Hv1 Hv2 Hargv.
  apply parseArgs_of_loop. rewrite Hargv. cbn [drop]. rewrite drop_0.
  rewrite (parseArgs_loop_mode_token pre _ _ "" "=" value1 _ _ Hpre
             (splitMode_equals _ Hv1)).
  rewrite (parseArgs_loop_mode_token mid _ _ "" "=" value2 _ _ Hmid
             (splitMode_equals _ Hv2)).
  rewrite (parseArgs_loop_no_flag _ _ _ Hpost). cbn [app].
  by rewrite <- app_assoc.
Qed.

Lemma parseArgs_last_mode_wins_witness :
  mode (parseArgs {| process.platform := "win32"; process.env := ∅;
                     process.argv := ["node"; "electron-builder-wrapper.js";
                                      "--mode=dist"; "--x64"; "--mode=dir"] |}) = "dir" /\
  builderArgs (parseArgs {| process.platform := "win32"; process.env := ∅;
                            process.argv := ["node"; "electron-builder-wrapper.js";
                                             "--mode=dist"; "--x64"; "--mode=dir"] |})
    = ["--x64"].
Proof.
  refine (parseArgs_last_mode_wins
            {| process.platform := "win32"; process.env := ∅;
               process.argv := ["node"; "electron-builder-wrapper.js";
                                "--mode=dist"; "--x64"; "--mode=dir"] |}
            "node" "electron-builder-wrapper.js" [] ["--x64"] [] "dist" "dir"
            _ _ _ _ _ _); try reflexivity; repeat constructor.
Defined.

Lemma parseArgs_loop_kept (args : list string) (mode0 : string) (acc : list string) :
  exists mode1 kept,
    fold_left parseArgs_step args (mode0, acc) = (mode1, acc ++ kept) /\
    kept `sublist_of` args /\
    (forall arg, arg ∈ args -> hasModeFlag arg = false -> arg ∈ kept) /\
    (forall arg, arg ∈ kept -> length (splitMode arg) <> 3%nat).
Proof.
  revert mode0 acc. induction args as [|a args IH]; intros mode0 acc; cbn [fold_left].
  - exists mode0, []. rewrite app_nil_r. repeat split.
    + constructor.
    + intros arg Harg. by apply elem_of_nil in Harg.
    + intros arg Harg. by apply elem_of_nil in Harg.
  - unfold parseArgs_step at 2.
    destruct (Nat.eqb_spec (length (splitMode a)) 3) as [Hthree|Hnot].
    + destruct (IH (nth 2 (splitMode a) "") acc) as (mode1 & kept & -> & Hsub & Hkeep & Hlen).
      exists mode1, kept. repeat split; [by apply sublist_cons| |exact Hlen].
      intros arg Harg Hflag. apply elem_of_cons in Harg as [->|Harg]; [|by apply Hkeep].
      rewrite (splitMode_no_flag _ Hflag) in Hthree. discriminate.
    + destruct (IH mode0 (acc ++ [a])) as (mode1 & kept & -> & Hsub & Hkeep & Hlen).
      exists mode1, (a :: kept). rewrite <- app_assoc. repeat split.
      * by apply sublist_skip.
      * intros arg Harg Hflag. apply elem_of_cons in Harg as [->|Harg];
          [apply list_elem_of_here | by apply list_elem_of_further, Hkeep].
      * intros arg Harg. apply elem_of_cons in Harg as [->|Harg]; [exact Hnot | by apply Hlen].
Qed.

(** X17. For every argument list, builderArgs is a subsequence of the script
    arguments: tokens are forwarded verbatim and in order, never altered,
    duplicated or reordered. Every token free of the flag is forwarded, and
    no forwarded token splits in three. *)
Theorem parseArgs_builderArgs_subsequence proc :
  builderArgs (parseArgs proc) `sublist_of` drop 2 (process.argv proc) /\
  (forall arg, arg ∈ drop 2 (process.argv proc) -> hasModeFlag arg = false ->
               arg ∈ builderArgs (parseArgs proc)) /\
  (forall arg, arg ∈ builderArgs (parseArgs proc) -> length (splitMode arg) <> 3%nat).
Proof.
  destruct (parseArgs_loop_kept (drop 2 (process.argv proc)) "dev" [])
    as (mode1 & kept & Hloop & Hsub & Hkeep & Hlen).
  apply parseArgs_of_loop in Hloop as [_ ->]. done.
Qed.

Lemma splitLoop_length_odd (fuel : nat) (piece s : string) :
  exists k, length (splitLoop fuel piece s) = S (2 * k).
Proof.
  revert piece s. induction fuel as [|fuel IH]; intros piece s; cbn [splitLoop].
  - by exists 0%nat.
  - destruct s as [|c s]; [by exists 0%nat|].
    destruct (matchMode (String c s)) as [[cap rest]|].
    + destruct (IH "" rest) as [k Hk]. exists (S k). cbn [length]. rewrite Hk. lia.
    + apply IH.
Qed.

Lemma splitLoop_flag (fuel : nat) (piece s : string) :
  hasModeFlag s = true ->
  (String.length s < fuel)%nat ->
  (3 <= length (splitLoop fuel piece s))%nat.
Proof.
  revert fuel piece. induction s as [|c s IH]; intros fuel piece Hflag Hfuel.
  - discriminate.
  - destruct fuel as [|fuel]; [lia|].
    cbn [splitLoop]. cbn [hasModeFlag] in Hflag.
    destruct (matchMode (String c s)) as [[cap rest]|].
    + destruct (splitLoop_length_odd fuel "" rest) as [k Hk].
      cbn [length]. rewrite Hk. lia.
    + apply IH; [exact Hflag | simpl in Hfuel; lia].
Qed.

(** X18. The split of a token always has an odd number of parts, one text
    part more than it has matches of the flag; and a token comes back as the
    single part it is exactly when it holds no flag followed by white space or
    an equals sign. *)
Theorem splitMode_parts arg :
  (exists k, length (splitMode arg) = S (2 * k)) /\
  (splitMode arg = [arg] <-> hasModeFlag arg = false).
Proof.
  split; [apply splitLoop_length_odd|]. split.
  - intros Hsplit. destruct (hasModeFlag arg) eqn:Hflag; [|reflexivity].
    pose proof (splitLoop_flag (S (String.length arg)) "" arg Hflag (Nat.lt_succ_diag_r _))
      as Hlen.
    unfold splitMode in Hsplit. rewrite Hsplit in Hlen. cbn in Hlen. lia.
  - apply splitMode_no_flag.
Qed.

(** Whether the regular expression matches at the start of a text of seven
    code units or more is decided by that text alone, whatever follows it. *)
Lemma matchMode_none_extend (s t : string) :
  (7 <= String.length s)%nat ->
  matchMode s = None ->
  matchMode (s +:+ t) = None.
Proof.
  intros Hlen.
  destruct s as [|c1 [|c2 [|c3 [|c4 [|c5 [|c6 [|c7 s]]]]]]]; simpl in Hlen; try lia.
  clear Hlen. rewrite !append_cons. unfold matchMode. cbn [stripPrefix].
  destruct (Ascii.eqb "-" c1); [|reflexivity].
  destruct (Ascii.eqb "-" c2); [|reflexivity].
  destruct (Ascii.eqb "m" c3); [|reflexivity].
  destruct (Ascii.eqb "o" c4); [|reflexivity].
  destruct (Ascii.eqb "d" c5); [|reflexivity].
  destruct (Ascii.eqb "e" c6); [|reflexivity].
  cbn [spanWhiteSpace].
  destruct (isWhiteSpace c7).
  - destruct (spanWhiteSpace s); discriminate.
  - destruct c7 as [[] [] [] [] [] [] [] []]; (discriminate || reflexivity).
Qed.

Lemma splitLoop_flag_inside (prefix value : string) :
  hasModeFlag (prefix +:+ "--mode") = false ->
  hasModeFlag value = false ->
  forall fuel piece,
    (String.length (prefix +:+ "--mode=" +:+ value) < fuel)%nat ->
    splitLoop fuel piece (prefix +:+ "--mode=" +:+ value)
      = [piece +:+ prefix; "="; value].
Proof.
  intros Hprefix Hvalue.
  induction prefix as [|c prefix IH]; intros fuel piece Hfuel.
  - rewrite append_empty_r.
    destruct fuel as [|fuel]; [lia|].
    change ("" +:+ "--mode=" +:+ value) with (String "-" ("-mode=" +:+ value)) in *.
    cbn [splitLoop].
    change (matchMode (String "-" ("-mode=" +:+ value))) with (Some ("=", value)).
    cbv beta iota.
    rewrite splitLoop_no_flag; [reflexivity | exact Hvalue|].
    simpl in Hfuel. rewrite length_append in Hfuel. simpl in Hfuel. lia.
  - destruct fuel as [|fuel]; [lia|].
    rewrite append_cons in Hprefix, Hfuel |- *.
    cbn [hasModeFlag] in Hprefix.
    destruct (matchMode (String c (prefix +:+ "--mode"))) eqn:Hhere; [discriminate|].
    assert (Hnone : matchMode (String c (prefix +:+ "--mode=" +:+ value)) = None).
    { replace (String c (prefix +:+ "--mode=" +:+ value))
        with (String c (prefix +:+ "--mode") +:+ ("=" +:+ value)).
      - apply matchMode_none_extend; [|exact Hhere].
        simpl. rewrite length_append. simpl. lia.
      - rewrite append_cons, append_assoc. reflexivity. }
    cbn [splitLoop]. rewrite Hnone.
    rewrite IH; [|exact Hprefix | simpl in Hfuel; lia].
    by rewrite append_assoc.
Qed.

(** X19. The regular expression is not anchored: a token that merely contains
    the flag and an equals sign, after any prefix that forms no earlier match,
    is taken as the mode token. The mode is the text after the equals sign,
    the prefix is lost, and the token is not forwarded. *)
Theorem parseArgs_flag_inside_token proc node script pre post prefix value :
  Forall (fun arg => hasModeFlag arg = false) pre ->
  Forall (fun arg => hasModeFlag arg = false) post ->
  hasModeFlag (prefix +:+ "--mode") = false ->
  hasModeFlag value = false ->
  process.argv proc = node :: script :: pre ++ (prefix +:+ "--mode=" +:+ value) :: post ->
  splitMode (prefix +:+ "--mode=" +:+ value) = [prefix; "="; value] /\
  mode (parseArgs proc) = value /\
  builderArgs (parseArgs proc) = pre ++ post.
Proof.
  intros Hpre Hpost Hprefix Hvalue Hargv.
  assert (Hsplit : splitMode (prefix +:+ "--mode=" +:+ value) = [prefix; "="; value]).
  { unfold splitMode.
    rewrite (splitLoop_flag_inside _ _ Hprefix Hvalue); [reflexivity | lia]. }
  split; [exact Hsplit|].
  apply parseArgs_of_loop. rewrite Hargv. cbn [drop]. rewrite drop_0.
  rewrite (parseArgs_loop_mode_token pre _ _ _ _ _ _ _ Hpre Hsplit).
  rewrite (parseArgs_loop_no_flag _ _ _ Hpost). by rewrite app_nil_l.
Qed.

Lemma parseArgs_flag_inside_token_witness :
  mode (parseArgs {| process.platform := "darwin"; process.env := ∅;
                     process.argv := ["node"; "electron-builder-wrapper.js";
                                      "--c.extraMetadata.args=--mode=dir"; "--x64"] |})
    = "dir" /\
  builderArgs (parseArgs {| process.platform := "darwin"; process.env := ∅;
                            process.argv := ["node"; "electron-builder-wrapper.js";
                                             "--c.extraMetadata.args=--mode=dir";
                                             "--x64"] |})
    = ["--x64"].
Proof.
  refine (proj2 (parseArgs_flag_inside_token
            {| process.platform := "darwin"; process.env := ∅;
               process.argv := ["node"; "electron-builder-wrapper.js";
                                "--c.extraMetadata.args=--mode=dir"; "--x64"] |}
            "node" "electron-builder-wrapper.js" [] ["--x64"]
            "--c.extraMetadata.args=" "dir" _ _ _ _ _));
    try reflexivity; repeat constructor.
Defined.

(** * Further properties of the afterSign hook *)

(** The three ways a call of [afterSign] on a non-empty target list can go. *)
Lemma afterSign_cases proc notarize context first rest :
  AfterSign.targets context = first :: rest ->
  (AfterSign.name first <> "dmg" /\
   AfterSign.afterSign proc notarize context = ([], Return tt)) \/
  (AfterSign.name first = "dmg" /\
   truthy_str (process.env proc !! "AC_USERNAME") = false /\
   exists warning,
     AfterSign.afterSign proc notarize context = ([ConsoleError warning], Return tt)) \/
  (AfterSign.name first = "dmg" /\
   exists user line,
     process.env proc !! "AC_USERNAME" = Some user /\ user <> "" /\
     let opts := {|
       appBundleId := "edu.mit.scratch.scratch-desktop";
       appPath := AfterSign.appOutDir context +:+ "/"
                  +:+ AfterSign.productFilename context +:+ ".app";
       appleId := user;
       appleIdPassword :=
         default "" (js_or (process.env proc !! "AC_PASSWORD")
                           (Some ("@keychain:Application Loader: " +:+ user)))
     |} in
     AfterSign.afterSign proc notarize context
       = ([ConsoleLog line; Notarize opts], notarize opts)).
Proof.
  intros Htargets. unfold AfterSign.afterSign. rewrite Htargets. cbn [lookup list_lookup].
  destruct (String.eqb_spec (AfterSign.name first) "mas-dev") as [Hdev|_].
  { left. split; [rewrite Hdev; discriminate | reflexivity]. }
  destruct (String.eqb_spec (AfterSign.name first) "mas") as [Hmas|_].
  { left. split; [rewrite Hmas; discriminate | reflexivity]. }
  destruct (String.eqb_spec (AfterSign.name first) "dmg") as [Hdmg|Hdmg];
    [|left; split; [exact Hdmg | reflexivity]].
  right. unfold AfterSign.notarizeMacBuild.
  destruct (process.env proc !! "AC_USERNAME") as [user|] eqn:Huser; cbn [truthy_str].
  - destruct (String.eqb_spec user "") as [->|Hnonempty]; cbn [negb].
    + left. split; [exact Hdmg|]. split; [reflexivity|]. eexists. reflexivity.
    + right. split; [exact Hdmg|]. exists user.
      destruct (truthy_str (process.env proc !! "AC_PASSWORD")) eqn:Hpassword;
        eexists; (split; [reflexivity|]); (split; [exact Hnonempty|]);
        cbv zeta; rewrite !bind_emit; unfold trace, result; cbn [fst snd];
        reflexivity.
  - left. split; [exact Hdmg|]. split; [reflexivity|]. eexists. reflexivity.
Qed.

(** X20. The hook reads nothing of the target list but its first entry: the
    remaining targets never change what it does. *)
Theorem afterSign_reads_first_target_only proc notarize context :
  AfterSign.afterSign proc notarize context =
  AfterSign.afterSign proc notarize
    {| AfterSign.appOutDir := AfterSign.appOutDir context;
       AfterSign.productFilename := AfterSign.productFilename context;
       AfterSign.targets := take 1 (AfterSign.targets context) |}.
Proof.
  destruct context as [dir product [|first rest]]; reflexivity.
Qed.

(** X21. A notarization request is made only for a first target named dmg
    and a non-empty AC_USERNAME. It is then the only request; it names the
    fixed application identifier, the bundle at the output directory, the
    product file name and the suffix .app, and the Apple ID from AC_USERNAME;
    and the hook ends as the request ends, so a failed request fails the
    hook. *)
Theorem afterSign_notarization_request proc notarize context opts :
  Notarize opts ∈ trace (AfterSign.afterSign proc notarize context) ->
  (exists first rest,
     AfterSign.targets context = first :: rest /\ AfterSign.name first = "dmg") /\
  (exists user,
     process.env proc !! "AC_USERNAME" = Some user /\ user <> "" /\ appleId opts = user) /\
  appBundleId opts = "edu.mit.scratch.scratch-desktop" /\
  appPath opts = AfterSign.appOutDir context +:+ "/"
                 +:+ AfterSign.productFilename context +:+ ".app" /\
  notarizations (trace (AfterSign.afterSign proc notarize context)) = [opts] /\
  result (AfterSign.afterSign proc notarize context) = notarize opts.
Proof.
  intros Hin.
  destruct (AfterSign.targets context) as [|first rest] eqn:Htargets.
  { unfold AfterSign.afterSign in Hin. rewrite Htargets in Hin.
    by apply elem_of_nil in Hin. }
  destruct (afterSign_cases proc notarize context first rest Htargets)
    as [[_ Hrun]|[(_ & _ & warning & Hrun)|(Hdmg & user & line & Huser & Hnonempty & Hrun)]];
    cbv zeta in Hrun; rewrite Hrun in Hin |- *; unfold trace in Hin; cbn [fst] in Hin.
  - by apply elem_of_nil in Hin.
  - rewrite elem_of_cons, elem_of_nil in Hin. destruct Hin as [Hin|[]]. discriminate.
  - rewrite !elem_of_cons, elem_of_nil in Hin.
    destruct Hin as [Hin|[Hin|[]]]; [discriminate|]. injection Hin as ->.
    split; [eauto|]. split; [eauto|]. repeat split.
Qed.

Lemma afterSign_notarization_request_witness :
  result (AfterSign.afterSign
            {| process.platform := "darwin";
               process.env := {["AC_USERNAME" := "dev@example.org"]};
               process.argv := [] |}
            (fun _ => Throw (Error "notarization rejected"))
            {| AfterSign.appOutDir := "dist/mac";
               AfterSign.productFilename := "Scratch";
               AfterSign.targets := [ {| AfterSign.name := "dmg" |} ] |})
  = Throw (Error "notarization rejected").
Proof.
  refine (proj2 (proj2 (proj2 (proj2 (proj2
            (afterSign_notarization_request
               {| process.platform := "darwin";
                  process.env := {["AC_USERNAME" := "dev@example.org"]};
                  process.argv := [] |}
               (fun _ => Throw (Error "notarization rejected"))
               {| AfterSign.appOutDir := "dist/mac";
                  AfterSign.productFilename := "Scratch";
                  AfterSign.targets := [ {| AfterSign.name := "dmg" |} ] |}
               {| appBundleId := "edu.mit.scratch.scratch-desktop";
                  appPath := "dist/mac/Scratch.app";
                  appleId := "dev@example.org";
                  appleIdPassword := "@keychain:Application Loader: dev@example.org" |}
               _)))))).
  apply list_elem_of_further, list_elem_of_here.
Defined.

(** X22. The password of the request: a non-empty AC_PASSWORD is passed on as
    it is; an AC_PASSWORD that is missing or empty is replaced by the keychain
    reference built from the Apple ID. *)
Theorem afterSign_password_choice proc notarize context opts :
  Notarize opts ∈ trace (AfterSign.afterSign proc notarize context) ->
  (forall password,
     process.env proc !! "AC_PASSWORD" = Some password -> password <> "" ->
     appleIdPassword opts = password) /\
  (truthy_str (process.env proc !! "AC_PASSWORD") = false ->
   appleIdPassword opts = "@keychain:Application Loader: " +:+ appleId opts).
Proof.
  intros Hin.
  destruct (AfterSign.targets context) as [|first rest] eqn:Htargets.
  { unfold AfterSign.afterSign in Hin. rewrite Htargets in Hin.
    by apply elem_of_nil in Hin. }
  destruct (afterSign_cases proc notarize context first rest Htargets)
    as [[_ Hrun]|[(_ & _ & warning & Hrun)|(Hdmg & user & line & Huser & Hnonempty & Hrun)]];
    cbv zeta in Hrun; rewrite Hrun in Hin; unfold trace in Hin; cbn [fst] in Hin.
  - by apply elem_of_nil in Hin.
  - rewrite elem_of_cons, elem_of_nil in Hin. destruct Hin as [Hin|[]]. discriminate.
  - rewrite !elem_of_cons, elem_of_nil in Hin.
    destruct Hin as [Hin|[Hin|[]]]; [discriminate|]. injection Hin as ->.
    cbn [appleIdPassword appleId]. unfold js_or. split.
    + intros password -> Hpassword. by rewrite (truthy_str_nonempty _ Hpassword).
    + intros ->. reflexivity.
Qed.

Lemma afterSign_password_choice_witness :
  appleIdPassword
    {| appBundleId := "edu.mit.scratch.scratch-desktop";
       appPath := "dist/mac/Scratch.app";
       appleId := "dev@example.org";
       appleIdPassword := "app-specific-password" |}
  = "app-specific-password".
Proof.
  refine (proj1 (afterSign_password_choice
            {| process.platform := "darwin";
               process.env := <["AC_PASSWORD" := "app-specific-password"]>
                                {["AC_USERNAME" := "dev@example.org"]};
               process.argv := [] |}
            (fun _ => Return tt)
            {| AfterSign.appOutDir := "dist/mac";
               AfterSign.productFilename := "Scratch";
               AfterSign.targets := [ {| AfterSign.name := "dmg" |} ] |}
            _ _) "app-specific-password" _ _).
  - apply list_elem_of_further, list_elem_of_here.
  - reflexivity.
  - discriminate.
Defined.

(** X23. The hook throws in two cases only: the target list is empty, or the
    notarization request it made failed, and then with the exception of the
    request. Missing credentials, and targets that need no notarization,
    never make it throw. *)
Theorem afterSign_throws_only proc notarize context e :
  result (AfterSign.afterSign proc notarize context) = Throw e ->
  AfterSign.targets context = [] \/
  exists opts,
    Notarize opts ∈ trace (AfterSign.afterSign proc notarize context) /\
    notarize opts = Throw e.
Proof.
  intros Hthrow.
  destruct (AfterSign.targets context) as [|first rest] eqn:Htargets; [by left|right].
  destruct (afterSign_cases proc notarize context first rest Htargets)
    as [[_ Hrun]|[(_ & _ & warning & Hrun)|(Hdmg & user & line & Huser & Hnonempty & Hrun)]];
    cbv zeta in Hrun; rewrite Hrun in Hthrow |- *; unfold result in Hthrow;
    cbn [snd] in Hthrow; try discriminate.
  eexists. split; [|exact Hthrow].
  unfold trace. cbn [fst]. apply list_elem_of_further, list_elem_of_here.
Qed.

Lemma afterSign_throws_only_witness :
  AfterSign.targets
    {| AfterSign.appOutDir := "dist/mac"; AfterSign.productFilename := "Scratch";
       AfterSign.targets := [] |} = [] \/
  exists opts,
    Notarize opts ∈
      trace (AfterSign.afterSign
               {| process.platform := "darwin"; process.env := ∅; process.argv := [] |}
               (fun _ => Return tt)
               {| AfterSign.appOutDir := "dist/mac"; AfterSign.productFilename := "Scratch";
                  AfterSign.targets := [] |}) /\
    (fun _ : NotarizeOptions => Return tt) opts
      = Throw (TypeError "Cannot read properties of undefined (reading 'name')").
Proof.
  exact (afterSign_throws_only
           {| process.platform := "darwin"; process.env := ∅; process.argv := [] |}
           (fun _ => Return tt)
           {| AfterSign.appOutDir := "dist/mac"; AfterSign.productFilename := "Scratch";
              AfterSign.targets := [] |}
           (TypeError "Cannot read properties of undefined (reading 'name')")
           eq_refl).
Defined.

(** * Further properties of [stripCSC] *)

(** X24. [stripCSC] returns its argument unchanged exactly when the argument
    holds none of the four code-signing variables. *)
Theorem stripCSC_unchanged_iff (environment : gmap string string) :
  stripCSC environment = environment <->
  forall k, k ∈ CSC_keys -> environment !! k = None.
Proof.
  split.
  - intros Hsame k Hk. rewrite <- Hsame. by apply lookup_stripCSC_key.
  - intros Hnone. apply map_eq. intros k.
    destruct (decide (k ∈ CSC_keys)) as [Hk|Hk].
    + by rewrite lookup_stripCSC_key, Hnone.
    + by apply lookup_stripCSC_other.
Qed.

(** X25. Stripping commutes with setting any other variable, and forgets a
    code-signing variable set just before; the result never holds more than
    the argument. *)
Theorem stripCSC_insert (environment : gmap string string) (k v : string) :
  (k ∉ CSC_keys -> stripCSC (<[k := v]> environment) = <[k := v]> (stripCSC environment)) /\
  (k ∈ CSC_keys -> stripCSC (<[k := v]> environment) = stripCSC environment) /\
  stripCSC environment ⊆ environment.
Proof.
  repeat apply conj.
  - intros Hk. apply map_eq. intros k'.
    destruct (decide (k' ∈ CSC_keys)) as [Hk'|Hk'].
    + rewrite lookup_stripCSC_key by done.
      rewrite lookup_insert_ne by (intros ->; contradiction).
      by rewrite lookup_stripCSC_key.
    + rewrite lookup_stripCSC_other by done.
      destruct (decide (k = k')) as [->|Hne].
      * by rewrite !lookup_insert_eq.
      * rewrite !lookup_insert_ne by done. by rewrite lookup_stripCSC_other.
  - intros Hk. apply map_eq. intros k'.
    destruct (decide (k' ∈ CSC_keys)) as [Hk'|Hk'].
    + by rewrite !lookup_stripCSC_key.
    + rewrite !lookup_stripCSC_other by done.
      apply lookup_insert_ne. intros ->. contradiction.
  - apply map_subseteq_spec. intros k' v' Hlookup.
    destruct (decide (k' ∈ CSC_keys)) as [Hk'|Hk'].
    + rewrite lookup_stripCSC_key in Hlookup by done. discriminate.
    + by rewrite lookup_stripCSC_other in Hlookup.
Qed.

Lemma stripCSC_insert_witness :
  stripCSC (<["CSC_LINK" := "cert.p12"]> sample_env) = stripCSC sample_env.
Proof.
  refine (proj1 (proj2 (stripCSC_insert sample_env "CSC_LINK" "cert.p12")) _).
  unfold CSC_keys. apply list_elem_of_here.
Defined.

(** * The target type test *)

(** X26. [isTargetOfType] does what its documentation says: it holds exactly
    when the name is the type itself, or the type followed by a colon and any
    text. A name that merely begins with the type, as mas-dev begins with
    mas, is not of that type. *)
Theorem isTargetOfType_exact_or_colon (targetName targetType : string) :
  isTargetOfType targetName targetType = true <->
  targetName = targetType \/ exists rest, targetName = targetType +:+ ":" +:+ rest.
Proof.
  unfold isTargetOfType. rewrite orb_true_iff, String.eqb_eq, indexOf_zero_prefix.
  split; intros [Hexact|Hcolon]; [by left| |by left|].
  - right. apply prefix_split in Hcolon as [rest ->].
    exists rest. apply append_assoc.
  - right. destruct Hcolon as [rest ->].
    rewrite <- append_assoc. apply prefix_app.
Qed.
